(** * evident: diversity handlers and power-analysis dispatch

    A shallow embedding of [evident/diversity_handler.py] and of
    [evident/q2/_methods.py], with the properties of the handlers stated
    and proved over it.

    Reading conventions.
    - [diversity_handler.py] is read with the two commas it lacks (after
      [tt_ind_solve_power] inside [partial(...)] and after the
      [difference] parameter of [power_analysis]) put back; nothing else
      of the text is altered.
    - A pandas [Series] is its dtype and its (label, value) items in row
      order; a [DataFrame] is its typed column header and its labelled
      rows.  Column names are taken to be distinct, as [read_table]
      produces them.
    - A table cell is one of the Python values [str], [int], [float]
      (with its NaN) and [None]; other objects are outside the model.
    - A Python float is the rational it denotes; the division
      [total_observations / 2] is the correctly rounded one of binary64,
      with its [OverflowError].
    - A raised exception is a class name and a message; the message of
      the interpreter's own [TypeError] is the text of Python 3.9 and
      earlier. *)

From Stdlib Require Import ZArith QArith String List.
From stdpp Require Import base gmap sets list strings.

(** ** Exceptions and results *)

Module Py.

(** The built-in exception classes the code can raise, the classes of
    [evident.exceptions] that the handler module and its tests name, and
    the two threshold errors of the specification. *)
Inductive exn_class : Set :=
  | ValueError
  | TypeError
  | KeyError
  | OverflowError
  | NoSamplesError
  | WrongPowerArguments
  | NonCategoricalColumnError
  | OnlyOneCategoryError
  | TooManyCategoriesError
  | InsufficientSampleSizeError.

Record exn : Set := Exn { exn_cls : exn_class; exn_msg : string }.

Inductive result (A : Type) : Type :=
  | Return (a : A)
  | Raise (e : exn).
Arguments Return {A} a.
Arguments Raise {A} e.

Definition bind {A B} (m : result A) (k : A → result B) : result B :=
  match m with
  | Return a => k a
  | Raise e => Raise e
  end.

Definition raised {A} (m : result A) : option exn :=
  match m with
  | Return _ => None
  | Raise e => Some e
  end.

Definition raises {A} (m : result A) (c : exn_class) : Prop :=
  exn_cls <$> raised m = Some c.

End Py.
Export Py.

#[global] Instance exn_class_eq_dec : EqDecision exn_class.
Proof. solve_decision. Defined.

#[global] Instance result_ret : MRet result := @Return.
#[global] Instance result_bind : MBind result := λ A B k m, Py.bind m k.

(** ** The pandas fragment the handlers use *)

Module Pandas.

Inductive dtype : Set := object | int64 | float64 | bool_.

(** One table cell: a [str], an [int], a [float] other than NaN, the
    float NaN, or [None]. *)
Inductive cell : Set :=
  | CStr (s : string)
  | CInt (z : Z)
  | CFloat (q : Q)
  | CNaN
  | CNone.

Record Series : Set := mkSeries {
  s_name : string;
  s_dtype : dtype;
  s_items : list (string * cell)
}.

Record DataFrame : Set := mkDataFrame {
  df_columns : list (string * dtype);
  df_rows : list (string * list cell)
}.

End Pandas.
Export Pandas.

#[global] Instance dtype_eq_dec : EqDecision dtype.
Proof. solve_decision. Defined.

#[global] Instance Q_eq_dec : EqDecision Q.
Proof. solve_decision. Defined.

#[global] Instance cell_eq_dec : EqDecision cell.
Proof. solve_decision. Defined.

(** [s.index] and [df.index], as lists of labels. *)
Definition s_index (s : Series) : list string := (s_items s).*1.
Definition s_values (s : Series) : list cell := (s_items s).*2.
Definition df_index (df : DataFrame) : list string := (df_rows df).*1.

(** Position of a column name in the header. *)
Fixpoint column_position (cols : list (string * dtype)) (column : string)
  : option (nat * dtype) :=
  match cols with
  | [] => None
  | (c, t) :: cols' =>
      if decide (c = column) then Some (0, t)
      else (λ p, (S p.1, p.2)) <$> column_position cols' column
  end.

(** [df[column]]: the column as a Series; [KeyError] for an unknown
    name. *)
Definition df_getitem (df : DataFrame) (column : string) : result Series :=
  match column_position (df_columns df) column with
  | None => Raise (Exn KeyError column)
  | Some (j, t) =>
      Return (mkSeries column t
                (map (λ r, (r.1, nth j r.2 CNaN)) (df_rows df)))
  end.

(** [.loc[labels]] on labelled rows: for each label in turn, every row
    carrying it; [KeyError] for a label no row carries. *)
Definition loc_one {A} (rows : list (string * A)) (l : string)
  : result (list (string * A)) :=
  match filter (λ r, r.1 = l) rows with
  | [] => Raise (Exn KeyError l)
  | rs => Return rs
  end.

Fixpoint loc {A} (rows : list (string * A)) (labels : list string)
  : result (list (string * A)) :=
  match labels with
  | [] => Return []
  | l :: labels' =>
      rs ← loc_one rows l;
      rest ← loc rows labels';
      Return (rs ++ rest)
  end.

Definition series_loc (s : Series) (labels : list string) : result Series :=
  items ← loc (s_items s) labels;
  Return (mkSeries (s_name s) (s_dtype s) items).

Definition df_loc (df : DataFrame) (labels : list string) : result DataFrame :=
  rows ← loc (df_rows df) labels;
  Return (mkDataFrame (df_columns df) rows).

(** The key under which the hash table of [unique()] files an object:
    two cells have the same key exactly when Python holds them equal
    ([==], with equal hashes).  An [int] and a [float] of the same value
    are equal ([1 == 1.0]), two floats are equal when they denote the
    same number, every NaN is filed with NaN, and [None] equals only
    itself. *)
Definition number_key (q : Q) : cell :=
  let r := Qred q in
  if decide (Qden r = 1%positive) then CInt (Qnum r) else CFloat r.

Definition py_key (c : cell) : cell :=
  match c with
  | CInt z => CInt z
  | CFloat q => number_key q
  | CStr s => CStr s
  | CNaN => CNaN
  | CNone => CNone
  end.

(** [Series.unique()]: the distinct values in order of first appearance,
    each represented by its first occurrence; NaN and [None] count as
    values, each of its own.  [seen] holds the keys met so far. *)
Fixpoint unique_from (seen : list cell) (l : list cell) : list cell :=
  match l with
  | [] => []
  | x :: l' =>
      if decide (py_key x ∈ seen) then unique_from seen l'
      else x :: unique_from (py_key x :: seen) l'
  end.

Definition unique (s : Series) : list cell := unique_from [] (s_values s).

(** ** diversity_handler.py *)

(** The closure [functools.partial] builds: the solver chosen and the
    keyword arguments bound to it. *)
Inductive partial : Set :=
  | partial_tt_ind_solve_power (nobs1 : option Q) (ratio : Q)
  | partial_FTestAnovaPower_solve_power (k_groups : nat) (nobs : option Z).

(** [a / 2^shift] rounded to the nearest integer, ties to even. *)
Definition round_half_even (a shift : Z) : Z :=
  let q := (a / 2 ^ shift)%Z in
  let r := (a mod 2 ^ shift)%Z in
  let half := (2 ^ (shift - 1))%Z in
  if decide ((half < r)%Z ∨ (r = half ∧ Z.odd q = true)) then (q + 1)%Z else q.

(** [n / 2] on a Python int: the binary64 float nearest to the quotient
    (53 significant bits, ties to even), and [OverflowError] when that
    float would reach 2^1024.  A quotient of at most 53 bits is exact. *)
Definition truediv_by_2 (n : Z) : result Q :=
  let a := Z.abs n in
  let shift := (Z.log2 a + 1 - 53)%Z in
  if decide (shift ≤ 0)%Z then Return (Qred (n # 2))
  else
    let m := round_half_even a shift in
    let x := (m * 2 ^ (shift - 1))%Z in
    if decide (2 ^ 1024 ≤ x)%Z then
      Raise (Exn OverflowError "integer division result too large for a float")
    else Return (inject_Z (Z.sgn n * x)).

(** [if total_observations is not None:
       total_observations = total_observations / 2] *)
Definition halve (total_observations : option Z) : result (option Q) :=
  match total_observations with
  | None => Return None
  | Some n => x ← truediv_by_2 n; Return (Some x)
  end.

(** What a method hands back: [None] or a float. *)
Inductive pyval : Set :=
  | PyNone
  | PyFloat (q : Q).

Record handler : Set := mkHandler {
  data : Series;
  metadata : DataFrame
}.

(** [BaseDiversityHandler.__init__] *)
Definition BaseDiversityHandler__init__ (data : Series) (metadata : DataFrame)
  : handler := mkHandler data metadata.

(** [BaseDiversityHandler.samples] *)
Definition samples (self : handler) : list string := df_index (metadata self).

(** [BaseDiversityHandler.power_analysis], the body of the abstract
    method: the closure is applied to the effect size, the power and
    alpha.  The closure's solver is outside the package and is taken as
    the function [power_function]. *)
Definition BaseDiversityHandler_power_analysis
    (power_function : Q → option Q → option Q → result pyval)
    (effect_size : Q) (alpha power : option Q) : result pyval :=
  val_to_solve ← power_function effect_size power alpha;
  Return val_to_solve.

(** [BaseDiversityHandler._incept_power_solve_function] *)
Definition _incept_power_solve_function
    (self : handler) (column : string) (total_observations : option Z)
  : result partial :=
  col ← df_getitem (metadata self) column;
  if decide (s_dtype col ≠ object) then
    Raise (Exn ValueError "Column must be of dtype object!")
  else
    let column_choices := unique col in
    let num_choices := length column_choices in
    if decide (num_choices = 1) then
      Raise (Exn ValueError "Only one column value!")
    else if decide (num_choices = 2) then
      total_observations ← halve total_observations;
      Return (partial_tt_ind_solve_power total_observations 1%Q)
    else
      Return (partial_FTestAnovaPower_solve_power num_choices total_observations).

(** [AlphaDiversityHandler.__init__].  Indexing by a set (accepted by
    pandas before 2.0) visits its members in the set's own order, the
    same for both [.loc] calls, since they index by one set object.
    Python leaves that order open; [elements] stands for it, and the
    properties below are stated so that they do not depend on which
    order it is. *)
Definition AlphaDiversityHandler__init__ (data : Series) (metadata : DataFrame)
  : result handler :=
  let md_samps : gset string := list_to_set (df_index metadata) in
  let data_samps : gset string := list_to_set (s_index data) in
  let samps_in_common := md_samps ∩ data_samps in
  d ← series_loc data (elements samps_in_common);
  m ← df_loc metadata (elements samps_in_common);
  Return (BaseDiversityHandler__init__ d m).

(** A call [f(..., kw=...)]: a keyword that names no parameter of [f] is
    a [TypeError], raised before the body of [f] runs.  The message is
    the one of Python 3.9 and earlier; later versions put the class name
    before the function name. *)
Definition check_keyword (fname : string) (params : list string) (kw : string)
  : result unit :=
  if decide (kw ∈ params) then Return ()
  else Raise (Exn TypeError
                (fname +:+ "() got an unexpected keyword argument '" +:+ kw +:+ "'")).

(** [AlphaDiversityHandler.power_analysis], with the keyword under which
    the call site passes [total_observations] left open ([self] and
    [column] are bound by the call already, so [kw] stands for any other
    name). *)
Definition power_analysis_kw (kw : string)
    (self : handler) (column : string) (total_observations : option Z)
    (difference alpha power : option Q) : result pyval :=
  _ ← check_keyword "_incept_power_solve_function"
        ["self"; "column"; "total_observations"] kw;
  power_func ← _incept_power_solve_function self column total_observations;
  Return PyNone.

(** The method as written, once the two commas are back: the call site
    spells the keyword [total_observation]. *)
Definition power_analysis := power_analysis_kw "total_observation".

(** ** A small dataset in the shape of the test fixture

    Six samples; the diversity vector and the metadata each hold one
    sample the other lacks. *)

Definition metadata_example : DataFrame :=
  mkDataFrame
    [("classification", object); ("year_diagnosed", int64);
     ("env_biome", object); ("cd_behavior", object)]
    [("S0", [CStr "B1"; CInt 2008; CStr "urban biome"; CStr "Stricturing"]);
     ("S1", [CStr "B1"; CInt 2010; CStr "urban biome"; CStr "Stricturing"]);
     ("S2", [CStr "B2"; CInt 2010; CStr "urban biome"; CStr "Penetrating"]);
     ("S3", [CStr "B1"; CInt 2010; CStr "urban biome"; CStr "Non-stricturing"]);
     ("S4", [CStr "B2"; CInt 2010; CStr "urban biome"; CStr "Stricturing"]);
     ("S5", [CStr "B2"; CInt 2010; CStr "urban biome"; CStr "Penetrating"])].

Definition faith_pd_example : Series :=
  mkSeries "faith_pd" float64
    [("S1", CFloat (27 # 2)); ("S2", CFloat (25 # 2)); ("S3", CFloat (14 # 1));
     ("S4", CFloat (12 # 1)); ("S5", CFloat (23 # 2)); ("S6", CFloat (9 # 1))].

Definition empty_handler : handler :=
  mkHandler (mkSeries "" object []) (mkDataFrame [] []).

Definition alpha_mock : handler :=
  match AlphaDiversityHandler__init__ faith_pd_example metadata_example with
  | Return h => h
  | Raise _ => empty_handler
  end.

(** ** q2/_methods.py *)

(** The handler class [_power_analysis] receives as its [handler]
    argument: its constructor, the [power_analysis] method of its
    instances, and the [to_dataframe] method of what that returns.
    [evident.UnivariateDataHandler] and [BivariateDataHandler], the two
    classes the callers pass, are defined outside the files embedded
    here. *)
Record handler_class (D H K R T : Type) : Type := mkHandlerClass {
  hc_new : D → DataFrame → nat → nat → result H;
  hc_power_analysis : H → string → K → result R;
  hc_to_dataframe : R → result T
}.
Arguments mkHandlerClass {D H K R T} _ _ _.
Arguments hc_new {D H K R T} _ _ _ _ _.
Arguments hc_power_analysis {D H K R T} _ _ _ _.
Arguments hc_to_dataframe {D H K R T} _ _.

(** [Series.to_frame()]: the one-column table of that name. *)
Definition to_frame (s : Series) : DataFrame :=
  mkDataFrame [(s_name s, s_dtype s)] (map (λ it, (it.1, [it.2])) (s_items s)).

(** [_power_analysis].  The metadata column is given as the Series its
    [to_series()] yields. *)
Definition _power_analysis {D H K R T}
    (data : D) (metadata : Series) (handler : handler_class D H K R T)
    (max_levels_per_category min_count_per_level : nat) (kwargs : K)
  : result T :=
  let md := metadata in
  let column := s_name md in
  dh ← hc_new handler data (to_frame md)
         max_levels_per_category min_count_per_level;
  res ← hc_power_analysis handler dh column kwargs;
  hc_to_dataframe handler res.

(** ** Parts of the package that the embedded files use but do not define *)

(** Modelled from the spec: [subset_values] of the alpha handler, which
    the tests call and diversity_handler.py does not define.  Section
    4.4: it returns only the diversity values for the given sample-id
    subset and fails with [NoSamplesError] if the resulting subset is
    empty.  The text of the message is not given and is left empty. *)
Definition subset_values (self : handler) (sample_ids : list string)
  : result Series :=
  let sub := filter (λ it, it.1 ∈ sample_ids) (s_items (data self)) in
  if decide (sub = []) then Raise (Exn NoSamplesError "")
  else Return (mkSeries (s_name (data self)) (s_dtype (data self)) sub).

(** Modelled from the spec: the beta-diversity data, which the source
    only names ([skbio.DistanceMatrix]).  Section 3: a distance
    structure keyed by sample-id pairs. *)
Record DistanceMatrix : Type := mkDistanceMatrix {
  dm_ids : gset string;
  dm_data : gmap (string * string) Q
}.

(** The index sets of the two axes. *)
Definition row_ids (dm : DistanceMatrix) : gset string :=
  set_map fst (dom (dm_data dm)).
Definition col_ids (dm : DistanceMatrix) : gset string :=
  set_map snd (dom (dm_data dm)).

(** Every pair of ids has an entry, and nothing else has. *)
Definition all_pairs (ids : gset string) : gset (string * string) :=
  list_to_set (i ← elements ids; j ← elements ids; [(i, j)]).
Definition dm_square (dm : DistanceMatrix) : Prop :=
  dom (dm_data dm) = all_pairs (dm_ids dm).

Definition dm_symmetric (dm : DistanceMatrix) : Prop :=
  map_Forall (λ k d, dm_data dm !! (k.2, k.1) = Some d) (dm_data dm).

(** Modelled from the spec: restriction of the distance data to a set of
    ids ([DistanceMatrix.filter] in the commented-out constructor).
    Sections 3 and 8: both axes are filtered by the same ids. *)
Definition dm_filter (ids : gset string) (dm : DistanceMatrix) : DistanceMatrix :=
  mkDistanceMatrix
    (dm_ids dm ∩ ids)
    (filter (λ kd, kd.1.1 ∈ ids ∧ kd.1.2 ∈ ids) (dm_data dm)).

Record beta_handler : Type := mkBetaHandler {
  b_data : DistanceMatrix;
  b_metadata : DataFrame
}.

(** Modelled from the spec: the constructor of [BetaDiversityHandler],
    present in diversity_handler.py only as a comment.  Section 3: data
    and metadata are both cut down to the ids they share. *)
Definition BetaDiversityHandler__init__ (data : DistanceMatrix)
    (metadata : DataFrame) : result beta_handler :=
  let md_samps : gset string := list_to_set (df_index metadata) in
  let data_samps : gset string := dm_ids data in
  let samps_in_common := md_samps ∩ data_samps in
  m ← df_loc metadata (elements samps_in_common);
  Return (mkBetaHandler (dm_filter samps_in_common data) m).

(** Modelled from the spec: [subset_values] of the beta handler.
    Section 4.4: the sub-matrix for the given sample-id subset;
    [NoSamplesError] if the resulting subset is empty. *)
Definition beta_subset_values (self : beta_handler) (sample_ids : list string)
  : result DistanceMatrix :=
  let sub := dm_filter (list_to_set sample_ids) (b_data self) in
  if decide (dm_ids sub = ∅) then Raise (Exn NoSamplesError "")
  else Return sub.

(** The columns of [alpha_mock] the examples below select. *)

Definition classification_column : Series :=
  mkSeries "classification" object
    [("S3", CStr "B1"); ("S5", CStr "B2"); ("S1", CStr "B1");
     ("S2", CStr "B2"); ("S4", CStr "B2")].

Definition cd_behavior_column : Series :=
  mkSeries "cd_behavior" object
    [("S3", CStr "Non-stricturing"); ("S5", CStr "Penetrating");
     ("S1", CStr "Stricturing"); ("S2", CStr "Penetrating");
     ("S4", CStr "Stricturing")].

Definition year_diagnosed_column : Series :=
  mkSeries "year_diagnosed" int64
    [("S3", CInt 2010); ("S5", CInt 2010); ("S1", CInt 2010);
     ("S2", CInt 2010); ("S4", CInt 2010)].

Definition env_biome_column : Series :=
  mkSeries "env_biome" object
    [("S3", CStr "urban biome"); ("S5", CStr "urban biome");
     ("S1", CStr "urban biome"); ("S2", CStr "urban biome");
     ("S4", CStr "urban biome")].

(** A three-sample distance matrix and a beta handler over it. *)

Definition dm_example : DistanceMatrix :=
  mkDistanceMatrix
    (list_to_set ["S1"; "S2"; "S3"])
    (list_to_map
       [(("S1", "S1"), 0%Q);       (("S1", "S2"), (1 # 2)%Q); (("S1", "S3"), (3 # 4)%Q);
        (("S2", "S1"), (1 # 2)%Q); (("S2", "S2"), 0%Q);       (("S2", "S3"), (1 # 4)%Q);
        (("S3", "S1"), (3 # 4)%Q); (("S3", "S2"), (1 # 4)%Q); (("S3", "S3"), 0%Q)]).

Definition beta_mock : beta_handler :=
  match BetaDiversityHandler__init__ dm_example metadata_example with
  | Return h => h
  | Raise _ => mkBetaHandler (mkDistanceMatrix ∅ ∅) (mkDataFrame [] [])
  end.

(** The classification of all six metadata samples, as a column. *)
Definition classification_metadata : Series :=
  mkSeries "classification" object
    [("S0", CStr "B1"); ("S1", CStr "B1"); ("S2", CStr "B2");
     ("S3", CStr "B1"); ("S4", CStr "B2"); ("S5", CStr "B2")].

(** Six samples, each a category of its own. *)
Definition metadata_six_example : DataFrame :=
  mkDataFrame
    [("site", object)]
    [("S1", [CStr "ileum"]); ("S2", [CStr "colon"]); ("S3", [CStr "rectum"]);
     ("S4", [CStr "cecum"]); ("S5", [CStr "jejunum"]); ("S6", [CStr "duodenum"])].

Definition six_mock : handler :=
  match AlphaDiversityHandler__init__ faith_pd_example metadata_six_example with
  | Return h => h
  | Raise _ => empty_handler
  end.

Definition site_column : Series :=
  mkSeries "site" object
    [("S3", CStr "rectum"); ("S5", CStr "jejunum"); ("S1", CStr "ileum");
     ("S6", CStr "duodenum"); ("S2", CStr "colon"); ("S4", CStr "cecum")].

(** Further example inputs: a handler over the unfiltered metadata, a
    table whose one column has a missing value, and a diversity vector
    that shares no sample with [metadata_example]. *)

Definition unfiltered_mock : handler :=
  BaseDiversityHandler__init__ faith_pd_example metadata_example.

Definition metadata_missing_example : DataFrame :=
  mkDataFrame
    [("sex", object)]
    [("S1", [CStr "female"]); ("S2", [CNaN]); ("S3", [CStr "female"])].

Definition missing_mock : handler :=
  BaseDiversityHandler__init__ faith_pd_example metadata_missing_example.

Definition sex_column : Series :=
  mkSeries "sex" object
    [("S1", CStr "female"); ("S2", CNaN); ("S3", CStr "female")].

Definition faith_pd_disjoint : Series :=
  mkSeries "faith_pd" float64 [("S6", CFloat (9 # 1)); ("S7", CFloat (10 # 1))].

(** The rows [.loc[labels]] selects when every label occurs: for each
    label in turn, the rows that carry it. *)
Definition rows_at {A} (rows : list (string * A)) (labels : list string)
  : list (string * A) :=
  labels ≫= λ l, filter (λ r, r.1 = l) rows.

(** * Properties *)

(** ** Results *)

Lemma bind_inv_Return {A B} (m : result A) (k : A → result B) (b : B) :
  (m ≫= k) = Return b → ∃ a, m = Return a ∧ k a = Return b.
Proof. destruct m as [a|e]; [by exists a | done]. Qed.

Lemma bind_inv_Raise {A B} (m : result A) (k : A → result B) (e : exn) :
  (m ≫= k) = Raise e → m = Raise e ∨ ∃ a, m = Return a ∧ k a = Raise e.
Proof. destruct m as [a|e']; simpl; [right; by exists a | intros [= ->]; by left]. Qed.

(** ** The checks of [_incept_power_solve_function] *)

Section Incept.

Variables (self : handler) (column : string) (col : Series).
Hypothesis Hcol : df_getitem (metadata self) column = Return col.

Lemma incept_dtype_error (total_observations : option Z) :
  s_dtype col ≠ object →
  _incept_power_solve_function self column total_observations
  = Raise (Exn ValueError "Column must be of dtype object!").
Proof.
  intros Hdt. unfold _incept_power_solve_function.
  rewrite Hcol; simpl. by case_decide.
Qed.

Lemma incept_one_choice (total_observations : option Z) :
  s_dtype col = object → length (unique col) = 1 →
  _incept_power_solve_function self column total_observations
  = Raise (Exn ValueError "Only one column value!").
Proof.
  intros Hdt Hn. unfold _incept_power_solve_function.
  rewrite Hcol; simpl. case_decide; [done|]. by case_decide.
Qed.

Lemma incept_two_choices (total_observations : option Z) :
  s_dtype col = object → length (unique col) = 2 →
  _incept_power_solve_function self column total_observations
  = (total_observations ← halve total_observations;
     Return (partial_tt_ind_solve_power total_observations 1%Q)).
Proof.
  intros Hdt Hn. unfold _incept_power_solve_function.
  rewrite Hcol; simpl. case_decide; [done|].
  case_decide; [lia|]. by case_decide.
Qed.

Lemma incept_more_choices (total_observations : option Z) :
  s_dtype col = object → 2 < length (unique col) →
  _incept_power_solve_function self column total_observations
  = Return (partial_FTestAnovaPower_solve_power
              (length (unique col)) total_observations).
Proof.
  intros Hdt Hn. unfold _incept_power_solve_function.
  rewrite Hcol; simpl. case_decide; [done|].
  case_decide; [lia|]. case_decide; [lia|done].
Qed.

End Incept.

(** Up to 2^53 in magnitude the division is exact. *)
Lemma truediv_by_2_exact (n : Z) :
  (Z.abs n ≤ 2 ^ 53)%Z → truediv_by_2 n = Return (Qred (n # 2)).
Proof.
  change (2 ^ 53)%Z with 9007199254740992%Z. intros Hn.
  destruct (decide (Z.abs n = 9007199254740992%Z)) as [Heq | Hne].
  - assert (n = 9007199254740992 ∨ n = -9007199254740992)%Z as [-> | ->]
      by lia; vm_compute; reflexivity.
  - unfold truediv_by_2. rewrite decide_True; [done|].
    destruct (decide (Z.abs n = 0%Z)) as [-> | Hz]; [simpl; lia|].
    assert (Z.log2 (Z.abs n) < 53)%Z; [|lia].
    apply Z.log2_lt_pow2; [lia|].
    change (2 ^ 53)%Z with 9007199254740992%Z. lia.
Qed.

(** The only way the division fails is the [OverflowError], and only
    beyond 2^53. *)
Lemma truediv_by_2_Raise (n : Z) (e : exn) :
  truediv_by_2 n = Raise e →
  e = Exn OverflowError "integer division result too large for a float"
  ∧ (2 ^ 53 < Z.abs n)%Z.
Proof.
  intros Hr. split.
  - unfold truediv_by_2 in Hr.
    destruct (decide _) in Hr; [done|]. destruct (decide _) in Hr; [|done].
    by injection Hr as <-.
  - destruct (decide (Z.abs n ≤ 2 ^ 53)%Z) as [Hle | Hgt]; [|lia].
    by rewrite (truediv_by_2_exact n Hle) in Hr.
Qed.

Lemma halve_Raise (total_observations : option Z) (e : exn) :
  halve total_observations = Raise e →
  ∃ n, total_observations = Some n ∧ truediv_by_2 n = Raise e.
Proof.
  destruct total_observations as [n|]; [|done]. simpl.
  intros [H | (x & _ & [=])]%bind_inv_Raise. by exists n.
Qed.

(** Whatever the column, the only exceptions the function raises are the
    [KeyError] of the column lookup, its two [ValueError]s and the
    [OverflowError] of the division. *)
Lemma incept_raises_only self column total_observations e :
  _incept_power_solve_function self column total_observations = Raise e →
  e = Exn KeyError column
  ∨ e = Exn ValueError "Column must be of dtype object!"
  ∨ e = Exn ValueError "Only one column value!"
  ∨ e = Exn OverflowError "integer division result too large for a float".
Proof.
  unfold _incept_power_solve_function, df_getitem.
  destruct (column_position _ _) as [[j t]|]; simpl.
  - repeat case_decide; try (intros [= <-]; by auto); try done.
    intros [Hh | (x & _ & [=])]%bind_inv_Raise.
    apply halve_Raise in Hh as (n & _ & [-> _]%truediv_by_2_Raise). auto.
  - intros [= <-]; auto.
Qed.

(** ** [power_analysis]: what any call can produce *)

Lemma power_analysis_kw_returns kw self column total_observations
    difference alpha power v :
  power_analysis_kw kw self column total_observations difference alpha power
  = Return v → v = PyNone.
Proof.
  unfold power_analysis_kw.
  intros (_ & _ & H)%bind_inv_Return.
  apply bind_inv_Return in H as (_ & _ & [= <-]). done.
Qed.

Lemma power_analysis_kw_raises kw self column total_observations
    difference alpha power e :
  power_analysis_kw kw self column total_observations difference alpha power
  = Raise e →
  exn_cls e = TypeError ∨ exn_cls e = KeyError ∨ exn_cls e = ValueError
  ∨ exn_cls e = OverflowError.
Proof.
  unfold power_analysis_kw. intros [H | (_ & _ & H)]%bind_inv_Raise.
  - unfold check_keyword in H. case_decide; [done|].
    injection H as <-. by left.
  - apply bind_inv_Raise in H as [H | (_ & _ & [=])].
    apply incept_raises_only in H as [-> | [-> | [-> | ->]]]; auto.
Qed.

(** ** Claims on the dispatch and its checks *)

(** C2.  For a categorical column and a supplied [total_observations]:
    with exactly two distinct values the function divides
    [total_observations] by 2 and binds the quotient as [nobs1] of the
    two-sample-t solver, with [ratio] 1.0 (the quotient is the exact half
    up to 2^53 in magnitude, and Python's float division throughout);
    with more than two it binds [total_observations] itself as [nobs] of
    the ANOVA-F solver, with [k_groups] the number of distinct values. *)
Theorem incept_binds_total_observations
    (self : handler) (column : string) (col : Series) (n : Z) :
  df_getitem (metadata self) column = Return col →
  s_dtype col = object →
  (length (unique col) = 2 →
     _incept_power_solve_function self column (Some n)
     = (x ← truediv_by_2 n; Return (partial_tt_ind_solve_power (Some x) 1%Q))
     ∧ ((Z.abs n ≤ 2 ^ 53)%Z →
        ∃ x, _incept_power_solve_function self column (Some n)
             = Return (partial_tt_ind_solve_power (Some x) 1%Q)
             ∧ (x * 2 == inject_Z n)%Q))
  ∧ (2 < length (unique col) →
     _incept_power_solve_function self column (Some n)
     = Return (partial_FTestAnovaPower_solve_power
                 (length (unique col)) (Some n))).
Proof.
  intros Hcol Hdt. split; intros Hn.
  - rewrite (incept_two_choices _ _ _ Hcol _ Hdt Hn). simpl. split.
    + by destruct (truediv_by_2 n).
    + intros Hb. rewrite (truediv_by_2_exact n Hb). simpl.
      eexists. split; [done|]. rewrite Qred_correct.
      unfold Qeq, Qmult, inject_Z. simpl. lia.
  - by rewrite (incept_more_choices _ _ _ Hcol _ Hdt Hn).
Qed.

Lemma incept_binds_total_observations_witness :
  _incept_power_solve_function alpha_mock "classification" (Some 40%Z)
  = Return (partial_tt_ind_solve_power (Some (20 # 1)) 1%Q)
  ∧ _incept_power_solve_function alpha_mock "cd_behavior" (Some 60%Z)
    = Return (partial_FTestAnovaPower_solve_power 3 (Some 60%Z)).
Proof.
  split.
  - pose proof (incept_binds_total_observations
                  alpha_mock "classification" classification_column 40) as H.
    destruct H as [H _]; [vm_compute; reflexivity | reflexivity |].
    destruct H as [_ H]; [reflexivity|].
    destruct H as (x & Hx & _); [vm_compute; discriminate|].
    rewrite Hx. vm_compute in Hx. by injection Hx as <-.
  - refine (proj2 (incept_binds_total_observations
             alpha_mock "cd_behavior" cd_behavior_column 60 _ _) _).
    + vm_compute; reflexivity.
    + reflexivity.
    + vm_compute. lia.
Defined.

(** C10.  The dtype check comes first: for every column whose dtype is
    not object the function raises its dtype error, whatever the number
    of distinct values, and so never its one-value error; the same holds
    through [power_analysis] once the call reaches the function. *)
Theorem dtype_check_precedes_count_check
    (self : handler) (column : string) (col : Series)
    (total_observations : option Z) (difference alpha power : option Q) :
  df_getitem (metadata self) column = Return col →
  s_dtype col ≠ object →
  _incept_power_solve_function self column total_observations
  = Raise (Exn ValueError "Column must be of dtype object!")
  ∧ _incept_power_solve_function self column total_observations
    ≠ Raise (Exn ValueError "Only one column value!")
  ∧ power_analysis_kw "total_observations" self column total_observations
      difference alpha power
    = Raise (Exn ValueError "Column must be of dtype object!").
Proof.
  intros Hcol Hdt.
  pose proof (incept_dtype_error _ _ _ Hcol total_observations Hdt) as H.
  split; [done|]. split.
  - by rewrite H.
  - unfold power_analysis_kw. by rewrite H.
Qed.

Lemma dtype_check_precedes_count_check_witness :
  length (unique year_diagnosed_column) = 1
  ∧ _incept_power_solve_function alpha_mock "year_diagnosed" None
    = Raise (Exn ValueError "Column must be of dtype object!").
Proof.
  split; [reflexivity|].
  refine (proj1 (dtype_check_precedes_count_check
            alpha_mock "year_diagnosed" year_diagnosed_column
            None None None None _ _)).
  - vm_compute; reflexivity.
  - vm_compute; discriminate.
Defined.

(** C3.  On the integer column of the example the function raises a
    [ValueError] whose message names neither the column nor its dtype;
    no column makes it raise [NonCategoricalColumnError], and neither
    does any call of [power_analysis]. *)
Theorem non_categorical_column_raises_ValueError :
  _incept_power_solve_function alpha_mock "year_diagnosed" None
  = Raise (Exn ValueError "Column must be of dtype object!")
  ∧ power_analysis alpha_mock "year_diagnosed" None None
      (Some (1 # 20)%Q) (Some (4 # 5)%Q)
    = Raise (Exn TypeError
        "_incept_power_solve_function() got an unexpected keyword argument 'total_observation'")
  ∧ (∀ self column total_observations,
       ¬ raises (_incept_power_solve_function self column total_observations)
           NonCategoricalColumnError)
  ∧ (∀ kw self column total_observations difference alpha power,
       ¬ raises (power_analysis_kw kw self column total_observations
                   difference alpha power) NonCategoricalColumnError).
Proof.
  split; [vm_compute; reflexivity|]. split; [vm_compute; reflexivity|]. split.
  - intros self column t. unfold raises.
    destruct (_incept_power_solve_function _ _ _) as [p|e] eqn:H; [done|].
    apply incept_raises_only in H as [-> | [-> | [-> | ->]]]; done.
  - intros kw self column t d a p. unfold raises.
    destruct (power_analysis_kw _ _ _ _ _ _ _) as [v|e] eqn:H; [done|].
    apply power_analysis_kw_raises in H. simpl. intros [= He].
    rewrite He in H. by destruct H as [|[|[|]]].
Qed.

(** C4.  On the one-valued column of the example the function raises a
    [ValueError] whose message names neither the column nor the value;
    no column makes it raise [OnlyOneCategoryError], and neither does any
    call of [power_analysis]. *)
Theorem one_category_column_raises_ValueError :
  _incept_power_solve_function alpha_mock "env_biome" None
  = Raise (Exn ValueError "Only one column value!")
  ∧ power_analysis alpha_mock "env_biome" None None
      (Some (1 # 20)%Q) (Some (4 # 5)%Q)
    = Raise (Exn TypeError
        "_incept_power_solve_function() got an unexpected keyword argument 'total_observation'")
  ∧ (∀ self column total_observations,
       ¬ raises (_incept_power_solve_function self column total_observations)
           OnlyOneCategoryError)
  ∧ (∀ kw self column total_observations difference alpha power,
       ¬ raises (power_analysis_kw kw self column total_observations
                   difference alpha power) OnlyOneCategoryError).
Proof.
  split; [vm_compute; reflexivity|]. split; [vm_compute; reflexivity|]. split.
  - intros self column t. unfold raises.
    destruct (_incept_power_solve_function _ _ _) as [p|e] eqn:H; [done|].
    apply incept_raises_only in H as [-> | [-> | [-> | ->]]]; done.
  - intros kw self column t d a p. unfold raises.
    destruct (power_analysis_kw _ _ _ _ _ _ _) as [v|e] eqn:H; [done|].
    apply power_analysis_kw_raises in H. simpl. intros [= He].
    rewrite He in H. by destruct H as [|[|[|]]].
Qed.

(** C1.  With all three of alpha, power and total_observations given,
    and with power alone given, [power_analysis] does not raise
    [WrongPowerArguments]: as written it stops at the misspelt keyword,
    and with the keyword spelt as the parameter it returns [None].  No
    call raises [WrongPowerArguments]. *)
Theorem power_analysis_never_WrongPowerArguments :
  power_analysis alpha_mock "classification" (Some 40%Z) None
    (Some (1 # 20)%Q) (Some (4 # 5)%Q)
  = Raise (Exn TypeError
      "_incept_power_solve_function() got an unexpected keyword argument 'total_observation'")
  ∧ power_analysis_kw "total_observations" alpha_mock "classification"
      (Some 40%Z) None (Some (1 # 20)%Q) (Some (4 # 5)%Q)
    = Return PyNone
  ∧ power_analysis_kw "total_observations" alpha_mock "classification"
      None None None (Some (4 # 5)%Q)
    = Return PyNone
  ∧ (∀ kw self column total_observations difference alpha power,
       ¬ raises (power_analysis_kw kw self column total_observations
                   difference alpha power) WrongPowerArguments).
Proof.
  do 3 (split; [vm_compute; reflexivity|]).
  intros kw self column t d a p. unfold raises.
  destruct (power_analysis_kw _ _ _ _ _ _ _) as [v|e] eqn:H; [done|].
  apply power_analysis_kw_raises in H. simpl. intros [= He].
  rewrite He in H. by destruct H as [|[|[|]]].
Qed.

(** C6.  Asked for the power at total_observations = 40 and alpha = 0.05
    on the two-group column, [power_analysis] yields no number: as
    written it raises [TypeError], and with the keyword spelt as the
    parameter it returns [None].  No call returns a float. *)
Theorem power_analysis_returns_no_number :
  power_analysis alpha_mock "classification" (Some 40%Z) None
    (Some (1 # 20)%Q) None
  = Raise (Exn TypeError
      "_incept_power_solve_function() got an unexpected keyword argument 'total_observation'")
  ∧ power_analysis_kw "total_observations" alpha_mock "classification"
      (Some 40%Z) None (Some (1 # 20)%Q) None
    = Return PyNone
  ∧ (∀ kw self column total_observations difference alpha power q,
       power_analysis_kw kw self column total_observations
         difference alpha power ≠ Return (PyFloat q)).
Proof.
  do 2 (split; [vm_compute; reflexivity|]).
  intros kw self column t d a p q H.
  by apply power_analysis_kw_returns in H.
Qed.

(** ** Label-based selection *)

Section Loc.

Context {A : Type}.
Implicit Types (rows : list (string * A)) (labels : list string).

Lemma loc_one_Return rows l :
  l ∈ rows.*1 → loc_one rows l = Return (filter (λ r, r.1 = l) rows).
Proof.
  intros (r & -> & Hr)%list_elem_of_fmap. unfold loc_one.
  destruct (filter _ rows) as [|r' rs] eqn:Hf; [|done].
  by destruct (filter_nil_not_elem_of _ _ r Hf).
Qed.

Lemma loc_one_Raise rows l :
  l ∉ rows.*1 → loc_one rows l = Raise (Exn KeyError l).
Proof.
  intros Hl. unfold loc_one.
  destruct (filter _ rows) as [|r rs] eqn:Hf; [done|].
  assert (r ∈ filter (λ r, r.1 = l) rows) as [<- Hr]%list_elem_of_filter
    by (rewrite Hf; left).
  destruct Hl. by apply list_elem_of_fmap_2.
Qed.

(** Selection by labels that all occur succeeds, and keeps exactly the
    rows whose label was asked for. *)
Lemma loc_Return rows labels :
  (∀ l, l ∈ labels → l ∈ rows.*1) →
  ∃ rs, loc rows labels = Return rs
        ∧ ∀ r, r ∈ rs ↔ r ∈ rows ∧ r.1 ∈ labels.
Proof.
  induction labels as [|l labels IH]; intros Hall; simpl.
  - exists []. split; [done|]. intros r. split.
    + by intros ?%elem_of_nil.
    + by intros [_ ?%elem_of_nil].
  - destruct IH as (rest & -> & Hrest).
    { intros l' Hl'. apply Hall. by right. }
    rewrite loc_one_Return by (apply Hall; left). simpl.
    eexists. split; [done|]. intros r.
    rewrite elem_of_app, list_elem_of_filter, Hrest, elem_of_cons.
    split.
    + intros [[-> Hr] | [Hr Hl]]; auto.
    + intros [Hr [-> | Hl]]; auto.
Qed.

Lemma loc_labels rows labels rs :
  (∀ l, l ∈ labels → l ∈ rows.*1) →
  (∀ r, r ∈ rs ↔ r ∈ rows ∧ r.1 ∈ labels) →
  list_to_set rs.*1 =@{gset string} list_to_set labels.
Proof.
  intros Hall Hrs. apply set_eq. intros i.
  rewrite !elem_of_list_to_set, list_elem_of_fmap. split.
  - intros (r & -> & Hr). by apply Hrs in Hr as [_ ?].
  - intros Hi.
    pose proof (Hall i Hi) as (r & Hir & Hr)%list_elem_of_fmap.
    exists r. split; [done|]. apply Hrs. split; [done|]. by rewrite <- Hir.
Qed.

End Loc.

(** ** Construction *)

Lemma AlphaDiversityHandler__init__spec (data_in : Series) (metadata_in : DataFrame) :
  let common : gset string :=
    list_to_set (s_index data_in) ∩ list_to_set (df_index metadata_in) in
  ∃ h, AlphaDiversityHandler__init__ data_in metadata_in = Return h
       ∧ list_to_set (s_index (data h)) = common
       ∧ list_to_set (samples h) = common
       ∧ (∀ it, it ∈ s_items (data h)
                ↔ it ∈ s_items data_in ∧ it.1 ∈ df_index metadata_in)
       ∧ (∀ r, r ∈ df_rows (metadata h)
               ↔ r ∈ df_rows metadata_in ∧ r.1 ∈ s_index data_in).
Proof.
  intros common. unfold AlphaDiversityHandler__init__.
  set (labels := elements (_ ∩ _)).
  assert (Hlab : ∀ l, l ∈ labels
            ↔ l ∈ df_index metadata_in ∧ l ∈ s_index data_in).
  { intros l. unfold labels.
    by rewrite elem_of_elements, elem_of_intersection, !elem_of_list_to_set. }
  assert (Hset : list_to_set labels = common).
  { apply set_eq. intros l. unfold common.
    rewrite elem_of_list_to_set, Hlab, elem_of_intersection,
      !elem_of_list_to_set. tauto. }
  destruct (loc_Return (s_items data_in) labels) as (ds & Hds & Hd).
  { intros l Hl. by apply Hlab in Hl as [_ ?]. }
  destruct (loc_Return (df_rows metadata_in) labels) as (ms & Hms & Hm).
  { intros l Hl. by apply Hlab in Hl as [? _]. }
  unfold series_loc, df_loc. rewrite Hds; simpl. rewrite Hms; simpl.
  eexists. split; [done|]. simpl. unfold s_index, samples, df_index. simpl.
  split; [|split; [|split]].
  - rewrite <- Hset. apply loc_labels with (rows := s_items data_in); [|done].
    intros l Hl. by apply Hlab in Hl as [_ ?].
  - rewrite <- Hset. apply loc_labels with (rows := df_rows metadata_in); [|done].
    intros l Hl. by apply Hlab in Hl as [? _].
  - intros it. rewrite Hd, Hlab. split; [tauto|].
    intros [Hit Hmd]. split; [done|]. split; [done|].
    by apply list_elem_of_fmap_2.
  - intros r. rewrite Hm, Hlab. split; [tauto|].
    intros [Hr Hda]. split; [done|]. split; [|done].
    by apply list_elem_of_fmap_2.
Qed.

(** C5.  Construction never fails; afterwards the data and the metadata
    of the handler carry the same set of sample ids, the intersection of
    the two input id sets, and hold exactly the input rows whose id both
    inputs have. *)
Theorem init_covers_common_samples (data_in : Series) (metadata_in : DataFrame) :
  ∃ h, AlphaDiversityHandler__init__ data_in metadata_in = Return h
       ∧ list_to_set (s_index (data h))
         =@{gset string} list_to_set (s_index data_in) ∩ list_to_set (df_index metadata_in)
       ∧ list_to_set (samples h)
         =@{gset string} list_to_set (s_index data_in) ∩ list_to_set (df_index metadata_in)
       ∧ (∀ it, it ∈ s_items (data h)
                ↔ it ∈ s_items data_in ∧ it.1 ∈ df_index metadata_in)
       ∧ (∀ r, r ∈ df_rows (metadata h)
               ↔ r ∈ df_rows metadata_in ∧ r.1 ∈ s_index data_in).
Proof. exact (AlphaDiversityHandler__init__spec data_in metadata_in). Qed.

(** ** Distance matrices restricted to a set of ids *)

Section DistanceMatrices.

Implicit Types (dm : DistanceMatrix) (ids : gset string).

Lemma elem_of_all_pairs ids i j : (i, j) ∈ all_pairs ids ↔ i ∈ ids ∧ j ∈ ids.
Proof.
  unfold all_pairs. rewrite elem_of_list_to_set, list_elem_of_bind. split.
  - intros (i' & (j' & Hij & Hj')%list_elem_of_bind & Hi').
    apply list_elem_of_singleton in Hij as [= -> ->].
    by rewrite <- !elem_of_elements.
  - intros [Hi Hj]. exists i. rewrite elem_of_elements. split; [|done].
    apply list_elem_of_bind. exists j. rewrite elem_of_elements.
    split; [|done]. by apply list_elem_of_singleton.
Qed.

Lemma dm_filter_lookup ids dm i j d :
  dm_data (dm_filter ids dm) !! (i, j) = Some d
  ↔ dm_data dm !! (i, j) = Some d ∧ i ∈ ids ∧ j ∈ ids.
Proof. unfold dm_filter; simpl. by rewrite map_lookup_filter_Some. Qed.

Lemma dm_filter_square ids dm : dm_square dm → dm_square (dm_filter ids dm).
Proof.
  unfold dm_square. intros Hsq. apply set_eq. intros [i j].
  rewrite elem_of_dom, elem_of_all_pairs. simpl.
  rewrite !elem_of_intersection. split.
  - intros [d (Hd & Hi & Hj)%dm_filter_lookup].
    assert ((i, j) ∈ dom (dm_data dm)) as Hin by (apply elem_of_dom; eauto).
    rewrite Hsq, elem_of_all_pairs in Hin. tauto.
  - intros [[Hi HiS] [Hj HjS]].
    assert ((i, j) ∈ dom (dm_data dm)) as [d Hd]%elem_of_dom
      by (rewrite Hsq, elem_of_all_pairs; tauto).
    exists d. by apply dm_filter_lookup.
Qed.

Lemma square_axes dm :
  dm_square dm → row_ids dm = dm_ids dm ∧ col_ids dm = dm_ids dm.
Proof.
  unfold dm_square, row_ids, col_ids. intros ->.
  split; apply set_eq; intros i; rewrite elem_of_map; split.
  - intros ([i' j] & -> & [Hi _]%elem_of_all_pairs). done.
  - intros Hi. exists (i, i). by rewrite elem_of_all_pairs.
  - intros ([i' j] & -> & [_ Hj]%elem_of_all_pairs). done.
  - intros Hi. exists (i, i). by rewrite elem_of_all_pairs.
Qed.

Lemma dm_filter_symmetric ids dm :
  dm_symmetric dm → dm_symmetric (dm_filter ids dm).
Proof.
  unfold dm_symmetric. rewrite !map_Forall_lookup.
  intros Hsym [i j] d (Hd & Hi & Hj)%dm_filter_lookup. simpl.
  apply dm_filter_lookup. split; [|done]. exact (Hsym (i, j) d Hd).
Qed.

End DistanceMatrices.

(** C9.  Whenever the requested ids meet the ids of the handler's
    distance matrix, [subset_values] returns the sub-matrix whose row
    index set and column index set are both the requested ids among the
    matrix ids, whose entries are the original entries at those pairs,
    and which is symmetric if the original is. *)
Theorem beta_subset_restricts_both_axes
    (self : beta_handler) (sample_ids : list string) :
  dm_square (b_data self) →
  dm_ids (b_data self) ∩ list_to_set sample_ids ≠ ∅ →
  ∃ sub, beta_subset_values self sample_ids = Return sub
    ∧ row_ids sub = dm_ids (b_data self) ∩ list_to_set sample_ids
    ∧ col_ids sub = dm_ids (b_data self) ∩ list_to_set sample_ids
    ∧ (∀ i j d, dm_data sub !! (i, j) = Some d
                ↔ dm_data (b_data self) !! (i, j) = Some d
                  ∧ i ∈ sample_ids ∧ j ∈ sample_ids)
    ∧ (dm_symmetric (b_data self) → dm_symmetric sub).
Proof.
  intros Hsq Hne. exists (dm_filter (list_to_set sample_ids) (b_data self)).
  split; [|split; [|split; [|split]]].
  - unfold beta_subset_values. simpl. by case_decide.
  - by apply (square_axes _ (dm_filter_square _ _ Hsq)).
  - by apply (square_axes _ (dm_filter_square _ _ Hsq)).
  - intros i j d. by rewrite dm_filter_lookup, !elem_of_list_to_set.
  - apply dm_filter_symmetric.
Qed.

Lemma beta_subset_restricts_both_axes_witness :
  ∃ sub, beta_subset_values beta_mock ["S1"; "S2"; "S9"] = Return sub
    ∧ row_ids sub = list_to_set ["S1"; "S2"]
    ∧ col_ids sub = list_to_set ["S1"; "S2"]
    ∧ dm_data sub !! ("S2", "S1") = Some (1 # 2)%Q
    ∧ dm_symmetric sub.
Proof.
  destruct (beta_subset_restricts_both_axes beta_mock ["S1"; "S2"; "S9"])
    as (sub & Hsub & Hrow & Hcol & Hdata & Hsym).
  - vm_compute. reflexivity.
  - vm_compute. discriminate.
  - exists sub. split; [exact Hsub|]. split; [|split; [|split]].
    + rewrite Hrow. vm_compute. reflexivity.
    + rewrite Hcol. vm_compute. reflexivity.
    + apply Hdata. split; [vm_compute; reflexivity|].
      split; apply (bool_decide_unpack _); vm_compute; exact I.
    + apply Hsym. unfold dm_symmetric. apply (bool_decide_unpack _).
      vm_compute. exact I.
Defined.

(** ** Subsetting to ids the handler does not have *)

Lemma filter_none {A} (P : A → Prop) `{!∀ x, Decision (P x)} (l : list A) :
  (∀ x, x ∈ l → ¬ P x) → filter P l = [].
Proof.
  intros Hno. destruct (filter P l) as [|x xs] eqn:Hf; [done|].
  assert (x ∈ filter P l) as [HP Hx]%list_elem_of_filter by (rewrite Hf; left).
  by destruct (Hno x Hx).
Qed.

Lemma BetaDiversityHandler__init__spec (dm : DistanceMatrix) (metadata_in : DataFrame) :
  let common : gset string := list_to_set (df_index metadata_in) ∩ dm_ids dm in
  ∃ h, BetaDiversityHandler__init__ dm metadata_in = Return h
       ∧ b_data h = dm_filter common dm
       ∧ dm_ids (b_data h) = common
       ∧ list_to_set (df_index (b_metadata h)) = common.
Proof.
  intros common. unfold BetaDiversityHandler__init__. fold common.
  assert (Hlab : ∀ l, l ∈ elements common → l ∈ (df_rows metadata_in).*1).
  { intros l. unfold common.
    rewrite elem_of_elements, elem_of_intersection, elem_of_list_to_set.
    by intros [? _]. }
  destruct (loc_Return (df_rows metadata_in) (elements common) Hlab)
    as (ms & Hms & Hm).
  unfold df_loc. rewrite Hms; simpl. eexists. split; [done|]. simpl.
  split; [done|]. split.
  - unfold common. apply set_eq. intros i.
    rewrite !elem_of_intersection. tauto.
  - unfold df_index; simpl. rewrite (loc_labels _ _ _ Hlab Hm).
    apply set_eq. intros i. by rewrite elem_of_list_to_set, elem_of_elements.
Qed.

(** C8.  For a handler built by its constructor and ids none of which is
    a sample of the handler, [subset_values] raises [NoSamplesError],
    on the alpha handler and on the beta handler alike; and what
    [subset_values] returns is never empty. *)
Theorem subset_values_disjoint_NoSamplesError :
  (∀ data_in metadata_in h sample_ids,
     AlphaDiversityHandler__init__ data_in metadata_in = Return h →
     (∀ i, i ∈ sample_ids → i ∉ samples h) →
     subset_values h sample_ids = Raise (Exn NoSamplesError ""))
  ∧ (∀ dm metadata_in h sample_ids,
     BetaDiversityHandler__init__ dm metadata_in = Return h →
     (∀ i, i ∈ sample_ids → i ∉ df_index (b_metadata h)) →
     beta_subset_values h sample_ids = Raise (Exn NoSamplesError ""))
  ∧ (∀ h sample_ids s,
     subset_values h sample_ids = Return s → s_items s ≠ [])
  ∧ (∀ h sample_ids sub,
     beta_subset_values h sample_ids = Return sub → dm_ids sub ≠ ∅).
Proof.
  split; [|split; [|split]].
  - intros data_in metadata_in h sample_ids Hinit Hdisj.
    destruct (AlphaDiversityHandler__init__spec data_in metadata_in)
      as (h' & Hinit' & Hdata & Hsamples & _).
    rewrite Hinit in Hinit'. injection Hinit' as <-.
    unfold subset_values. rewrite filter_none; [by case_decide|].
    intros it Hit Hin. apply (Hdisj _ Hin).
    apply (elem_of_list_to_set (C:=gset string)). rewrite Hsamples, <- Hdata.
    apply elem_of_list_to_set. by apply list_elem_of_fmap_2.
  - intros dm metadata_in h sample_ids Hinit Hdisj.
    destruct (BetaDiversityHandler__init__spec dm metadata_in)
      as (h' & Hinit' & _ & Hids & Hmd).
    rewrite Hinit in Hinit'. injection Hinit' as <-.
    unfold beta_subset_values. simpl. case_decide as Hempty; [done|].
    destruct Hempty. apply set_eq. intros i.
    rewrite elem_of_intersection, elem_of_list_to_set, Hids, <- Hmd,
      elem_of_list_to_set.
    split; [|by intros ?%not_elem_of_empty].
    intros [Hi Hin]. by destruct (Hdisj i Hin).
  - intros h sample_ids s. unfold subset_values.
    case_decide; [done|]. by intros [= <-].
  - intros h sample_ids sub. unfold beta_subset_values. simpl.
    case_decide; [done|]. by intros [= <-].
Qed.

Lemma subset_values_disjoint_NoSamplesError_witness :
  subset_values alpha_mock ["S0"; "S6"; "S9"] = Raise (Exn NoSamplesError "")
  ∧ beta_subset_values beta_mock ["S0"; "S4"] = Raise (Exn NoSamplesError "").
Proof.
  destruct subset_values_disjoint_NoSamplesError as (Ha & Hb & _ & _).
  split.
  - apply (Ha faith_pd_example metadata_example).
    + vm_compute. reflexivity.
    + apply Forall_forall. apply (bool_decide_unpack _). vm_compute. exact I.
  - apply (Hb dm_example metadata_example).
    + vm_compute. reflexivity.
    + apply Forall_forall. apply (bool_decide_unpack _). vm_compute. exact I.
Defined.

(** ** The thresholds [_power_analysis] passes on *)

Lemma _power_analysis_Raise_inv {D H K R T} (data_in : D) (md_col : Series)
    (handler : handler_class D H K R T) (max_levels min_count : nat)
    (kwargs : K) (e : exn) :
  _power_analysis data_in md_col handler max_levels min_count kwargs = Raise e →
  hc_new handler data_in (to_frame md_col) max_levels min_count = Raise e
  ∨ ∃ dh, hc_new handler data_in (to_frame md_col) max_levels min_count
          = Return dh
          ∧ (hc_power_analysis handler dh (s_name md_col) kwargs = Raise e
             ∨ ∃ res, hc_power_analysis handler dh (s_name md_col) kwargs
                      = Return res
                      ∧ hc_to_dataframe handler res = Raise e).
Proof.
  unfold _power_analysis.
  intros [Hnew | (dh & Hnew & Hrest)]%bind_inv_Raise; [by left|].
  right. exists dh. split; [done|].
  apply bind_inv_Raise in Hrest as [Hpa | (res & Hpa & Hdf)]; [by left|].
  right. by exists res.
Qed.




(** * Further properties of the embedded code *)

(** ** Distinct values *)

Lemma unique_from_keys (seen l : list cell) (k : cell) :
  k ∈ py_key <$> unique_from seen l ↔ k ∈ py_key <$> l ∧ k ∉ seen.
Proof.
  revert seen. induction l as [|y l IH]; intros seen.
  - simpl. split; [by intros ?%elem_of_nil | by intros [?%elem_of_nil _]].
  - change (unique_from seen (y :: l))
      with (if decide (py_key y ∈ seen) then unique_from seen l
            else y :: unique_from (py_key y :: seen) l).
    rewrite fmap_cons, (elem_of_cons (py_key <$> l)).
    destruct (decide (py_key y ∈ seen)) as [Hy | Hy].
    + rewrite IH. split; [tauto|].
      intros [[-> | Hk] Hseen]; [done | tauto].
    + rewrite fmap_cons, elem_of_cons, IH, not_elem_of_cons. split.
      * intros [-> | [Hk [Hne Hseen]]]; tauto.
      * intros [[-> | Hk] Hseen]; [tauto|].
        destruct (decide (k = py_key y)) as [-> | Hne]; tauto.
Qed.

Lemma unique_from_keys_NoDup (seen l : list cell) :
  NoDup (py_key <$> unique_from seen l).
Proof.
  revert seen. induction l as [|y l IH]; intros seen.
  - constructor.
  - change (unique_from seen (y :: l))
      with (if decide (py_key y ∈ seen) then unique_from seen l
            else y :: unique_from (py_key y :: seen) l).
    destruct (decide (py_key y ∈ seen)); [apply IH|].
    rewrite fmap_cons. constructor; [|apply IH].
    rewrite unique_from_keys, not_elem_of_cons. tauto.
Qed.

Lemma unique_from_length (seen l : list cell) :
  length (unique_from seen l) ≤ length l.
Proof.
  revert seen. induction l as [|y l IH]; intros seen; [done|].
  change (unique_from seen (y :: l))
    with (if decide (py_key y ∈ seen) then unique_from seen l
          else y :: unique_from (py_key y :: seen) l).
  destruct (decide (py_key y ∈ seen));
    [specialize (IH seen) | specialize (IH (py_key y :: seen))];
    simpl; lia.
Qed.

Lemma unique_keys (col : Series) (k : cell) :
  k ∈ py_key <$> unique col ↔ k ∈ py_key <$> s_values col.
Proof.
  unfold unique. rewrite unique_from_keys. split; [tauto|].
  intros Hk. split; [done|]. by intros ?%elem_of_nil.
Qed.

Lemma unique_same_values (col1 col2 : Series) :
  s_values col1 ⊆ s_values col2 → s_values col2 ⊆ s_values col1 →
  length (unique col1) = length (unique col2).
Proof.
  intros H12 H21.
  rewrite <- (length_fmap py_key (unique col1)).
  rewrite <- (length_fmap py_key (unique col2)).
  apply Permutation_length, NoDup_Permutation.
  - apply unique_from_keys_NoDup.
  - apply unique_from_keys_NoDup.
  - intros k. rewrite !unique_keys, !list_elem_of_fmap. split.
    + intros (x & -> & Hx). exists x. split; [done | by apply H12].
    + intros (x & -> & Hx). exists x. split; [done | by apply H21].
Qed.

Lemma incept_unfold self column total_observations col :
  df_getitem (metadata self) column = Return col →
  s_dtype col = object →
  _incept_power_solve_function self column total_observations
  = if decide (length (unique col) = 1) then
      Raise (Exn ValueError "Only one column value!")
    else if decide (length (unique col) = 2) then
      (total_observations ← halve total_observations;
       Return (partial_tt_ind_solve_power total_observations 1%Q))
    else
      Return (partial_FTestAnovaPower_solve_power
                (length (unique col)) total_observations).
Proof.
  intros Hcol Hdt. unfold _incept_power_solve_function.
  rewrite Hcol; simpl. by case_decide.
Qed.

Lemma incept_same_value_set
    (self1 self2 : handler) (column : string) (col1 col2 : Series)
    (total_observations : option Z) :
  df_getitem (metadata self1) column = Return col1 →
  df_getitem (metadata self2) column = Return col2 →
  s_dtype col1 = s_dtype col2 →
  s_values col1 ⊆ s_values col2 →
  s_values col2 ⊆ s_values col1 →
  _incept_power_solve_function self1 column total_observations
  = _incept_power_solve_function self2 column total_observations.
Proof.
  intros Hc1 Hc2 Hdt H12 H21.
  destruct (decide (s_dtype col1 = object)) as [Hobj | Hobj].
  - rewrite (incept_unfold _ _ _ _ Hc1 Hobj).
    rewrite (incept_unfold _ _ _ _ Hc2) by congruence.
    by rewrite (unique_same_values col1 col2).
  - rewrite (incept_dtype_error _ _ _ Hc1 _ Hobj).
    rewrite (incept_dtype_error _ _ _ Hc2); [done | congruence].
Qed.

(** X1.  The closure depends on the column only through its dtype and
    the set of its values: two handlers whose columns have the same
    dtype and the same values, in whatever order and multiplicity, get
    the same result. *)
Theorem incept_depends_on_value_set
    (self1 self2 : handler) (column : string) (col1 col2 : Series)
    (total_observations : option Z) :
  df_getitem (metadata self1) column = Return col1 →
  df_getitem (metadata self2) column = Return col2 →
  s_dtype col1 = s_dtype col2 →
  s_values col1 ⊆ s_values col2 →
  s_values col2 ⊆ s_values col1 →
  _incept_power_solve_function self1 column total_observations
  = _incept_power_solve_function self2 column total_observations.
Proof. apply incept_same_value_set. Qed.

Lemma incept_depends_on_value_set_witness :
  _incept_power_solve_function alpha_mock "classification" (Some 40%Z)
  = _incept_power_solve_function unfiltered_mock "classification" (Some 40%Z).
Proof.
  apply (incept_depends_on_value_set alpha_mock unfiltered_mock
           "classification" classification_column classification_metadata).
  - vm_compute. reflexivity.
  - vm_compute. reflexivity.
  - reflexivity.
  - apply (bool_decide_unpack _). vm_compute. exact I.
  - apply (bool_decide_unpack _). vm_compute. exact I.
Defined.

(** X2.  A NaN is a value of its own: an object column that holds one
    label and, somewhere, a NaN counts two choices and takes the
    two-sample-t branch (halving [total_observations] and binding it with
    [ratio] 1.0), not the one-value error. *)
Theorem missing_value_counts_as_group
    (self : handler) (column : string) (col : Series) (v : string)
    (total_observations : option Z) :
  df_getitem (metadata self) column = Return col →
  s_dtype col = object →
  CStr v ∈ s_values col →
  CNaN ∈ s_values col →
  (∀ x, x ∈ s_values col → x = CStr v ∨ x = CNaN) →
  length (unique col) = 2
  ∧ _incept_power_solve_function self column total_observations
    = (total_observations ← halve total_observations;
       Return (partial_tt_ind_solve_power total_observations 1%Q)).
Proof.
  intros Hcol Hdt Hv Hnan Hall.
  assert (py_key <$> unique col ≡ₚ [CStr v; CNaN]) as Hperm.
  { apply NoDup_Permutation.
    - apply unique_from_keys_NoDup.
    - constructor; [|constructor; [|constructor]].
      + by intros [=]%list_elem_of_singleton.
      + by intros ?%elem_of_nil.
    - intros k. rewrite unique_keys, list_elem_of_fmap, !elem_of_cons. split.
      + intros (x & -> & Hx). destruct (Hall x Hx) as [-> | ->]; auto.
      + intros [-> | [-> | ?%elem_of_nil]]; [| |done].
        * by exists (CStr v).
        * by exists CNaN. }
  apply Permutation_length in Hperm. rewrite length_fmap in Hperm.
  simpl in Hperm. split; [done|].
  by apply incept_two_choices with (col := col).
Qed.

Lemma missing_value_counts_as_group_witness :
  _incept_power_solve_function missing_mock "sex" (Some 30%Z)
  = Return (partial_tt_ind_solve_power (Some (15 # 1)) 1%Q).
Proof.
  refine (eq_trans (proj2 (missing_value_counts_as_group missing_mock "sex"
                             sex_column "female" (Some 30%Z) _ _ _ _ _)) _);
    [| | | | |vm_compute; reflexivity].
  - vm_compute. reflexivity.
  - reflexivity.
  - apply (bool_decide_unpack _). vm_compute. exact I.
  - apply (bool_decide_unpack _). vm_compute. exact I.
  - apply Forall_forall. apply (bool_decide_unpack _). vm_compute. exact I.
Defined.

(** ** Column lookup *)

Lemma column_position_None (cols : list (string * dtype)) (column : string) :
  column_position cols column = None ↔ column ∉ cols.*1.
Proof.
  induction cols as [|[c t] cols IH]; simpl.
  - split; [by intros _ ?%elem_of_nil | done].
  - rewrite not_elem_of_cons. case_decide as Hc.
    + split; [done | by intros [? _]].
    + destruct (column_position cols column) as [p|]; simpl.
      * split; [done|]. intros [_ Hno]. by apply IH in Hno.
      * split; [|done]. intros _. split; [done | by apply IH].
Qed.

Lemma df_getitem_KeyError (df : DataFrame) (column : string) :
  column ∉ (df_columns df).*1 ↔ df_getitem df column = Raise (Exn KeyError column).
Proof.
  rewrite <- column_position_None. unfold df_getitem.
  destruct (column_position _ _) as [[j t]|]; split; done.
Qed.

Lemma df_getitem_length (df : DataFrame) (column : string) (col : Series) :
  df_getitem df column = Return col →
  length (s_values col) = length (df_rows df).
Proof.
  unfold df_getitem. destruct (column_position _ _) as [[j t]|]; [|done].
  intros [= <-]. unfold s_values; simpl. by rewrite !length_fmap.
Qed.

(** X3.  A column name that the metadata does not have is a [KeyError]
    carrying that name, raised before any check of dtype or values; with
    the keyword spelt as the parameter, [power_analysis] passes the same
    error on. *)
Theorem unknown_column_raises_KeyError
    (self : handler) (column : string) (total_observations : option Z)
    (difference alpha power : option Q) :
  column ∉ (df_columns (metadata self)).*1 →
  _incept_power_solve_function self column total_observations
  = Raise (Exn KeyError column)
  ∧ power_analysis_kw "total_observations" self column total_observations
      difference alpha power
    = Raise (Exn KeyError column).
Proof.
  intros Hcol%df_getitem_KeyError.
  assert (_incept_power_solve_function self column total_observations
          = Raise (Exn KeyError column)) as H.
  { unfold _incept_power_solve_function. by rewrite Hcol. }
  split; [done|]. unfold power_analysis_kw. by rewrite H.
Qed.

Lemma unknown_column_raises_KeyError_witness :
  _incept_power_solve_function alpha_mock "bmi" None
  = Raise (Exn KeyError "bmi").
Proof.
  refine (proj1 (unknown_column_raises_KeyError alpha_mock "bmi"
                   None None None None _)).
  apply (bool_decide_unpack _). vm_compute. exact I.
Defined.

(** X4.  On metadata with distinct column names the function fails in
    exactly four ways: [KeyError] for an unknown column, the dtype
    [ValueError] for a column that is not of dtype object, the one-value
    [ValueError] for an object column with a single distinct value, and
    the [OverflowError] of the division for a two-valued object column
    with a [total_observations] too large for a float. *)
Theorem incept_failure_modes
    (self : handler) (column : string) (total_observations : option Z)
    (e : exn) :
  NoDup (df_columns (metadata self)).*1 →
  (_incept_power_solve_function self column total_observations = Raise e)
  ↔ ((column ∉ (df_columns (metadata self)).*1) ∧ e = Exn KeyError column)
    ∨ (∃ col, df_getitem (metadata self) column = Return col
              ∧ s_dtype col ≠ object
              ∧ e = Exn ValueError "Column must be of dtype object!")
    ∨ (∃ col, df_getitem (metadata self) column = Return col
              ∧ s_dtype col = object
              ∧ length (unique col) = 1
              ∧ e = Exn ValueError "Only one column value!")
    ∨ (∃ col n, df_getitem (metadata self) column = Return col
                ∧ s_dtype col = object
                ∧ length (unique col) = 2
                ∧ total_observations = Some n
                ∧ truediv_by_2 n = Raise e
                ∧ e = Exn OverflowError
                        "integer division result too large for a float").
Proof.
  intros _. split.
  - intros Hr.
    destruct (df_getitem (metadata self) column) as [col|e'] eqn:Hcol.
    + right. destruct (decide (s_dtype col = object)) as [Hdt | Hdt].
      * right. rewrite (incept_unfold _ _ _ _ Hcol Hdt) in Hr.
        destruct (decide (length (unique col) = 1)) as [Hone | Hone].
        { left. exists col. by injection Hr as <-. }
        destruct (decide (length (unique col) = 2)) as [Htwo | Htwo]; [|done].
        right. exists col.
        apply bind_inv_Raise in Hr as [Hh | (x & _ & [=])].
        apply halve_Raise in Hh as (n & -> & Hn). exists n.
        by destruct (truediv_by_2_Raise n e Hn) as [-> _].
      * left. exists col. rewrite (incept_dtype_error _ _ _ Hcol _ Hdt) in Hr.
        by injection Hr as <-.
    + left. unfold _incept_power_solve_function, df_getitem in Hr.
      unfold df_getitem in Hcol.
      destruct (column_position _ _) as [[j t]|] eqn:Hpos; [done|].
      simpl in Hr. injection Hr as <-.
      split; [by apply column_position_None | done].
  - intros [[Hcol ->] | [(col & Hcol & Hdt & ->)
            | [(col & Hcol & Hdt & Hn & ->)
            | (col & n & Hcol & Hdt & Hn & -> & Hdiv & _)]]].
    + apply df_getitem_KeyError in Hcol.
      unfold _incept_power_solve_function. by rewrite Hcol.
    + by apply incept_dtype_error with (col := col).
    + by apply incept_one_choice with (col := col).
    + rewrite (incept_two_choices _ _ _ Hcol _ Hdt Hn). simpl.
      by rewrite Hdiv.
Qed.

Lemma incept_failure_modes_witness :
  _incept_power_solve_function alpha_mock "classification" (Some (10 ^ 400)%Z)
  = Raise (Exn OverflowError "integer division result too large for a float")
  ∧ _incept_power_solve_function alpha_mock "env_biome" None
    = Raise (Exn ValueError "Only one column value!").
Proof.
  split.
  - apply (incept_failure_modes alpha_mock "classification").
    + apply (bool_decide_unpack _). vm_compute. exact I.
    + do 3 right. exists classification_column, (10 ^ 400)%Z.
      split; [vm_compute; reflexivity|]. split; [reflexivity|].
      split; [reflexivity|]. split; [reflexivity|].
      split; [vm_compute; reflexivity | reflexivity].
  - apply (incept_failure_modes alpha_mock "env_biome").
    + apply (bool_decide_unpack _). vm_compute. exact I.
    + do 2 right. left. exists env_biome_column.
      split; [vm_compute; reflexivity|]. split; [reflexivity|].
      split; reflexivity.
Defined.

(** X5.  Whatever the function returns is either the two-sample-t
    closure with [ratio] 1.0 and [nobs1] the halved [total_observations]
    ([None] left as it is), or the ANOVA-F closure with [nobs] equal to
    [total_observations] and a [k_groups] that is neither 1 nor 2 and at
    most the number of metadata rows. *)
Theorem incept_closure_shape
    (self : handler) (column : string) (total_observations : option Z)
    (p : partial) :
  _incept_power_solve_function self column total_observations = Return p →
  (∃ halved, halve total_observations = Return halved
             ∧ p = partial_tt_ind_solve_power halved 1%Q)
  ∨ ∃ k, k ≠ 1 ∧ k ≠ 2 ∧ k ≤ length (df_rows (metadata self))
         ∧ p = partial_FTestAnovaPower_solve_power k total_observations.
Proof.
  intros Hr.
  destruct (df_getitem (metadata self) column) as [col|e'] eqn:Hcol.
  - destruct (decide (s_dtype col = object)) as [Hdt | Hdt].
    + rewrite (incept_unfold _ _ _ _ Hcol Hdt) in Hr.
      destruct (decide (length (unique col) = 1)) as [Hone | Hone]; [done|].
      destruct (decide (length (unique col) = 2)) as [Htwo | Htwo].
      * left. apply bind_inv_Return in Hr as (halved & Hh & [= <-]).
        by exists halved.
      * right. injection Hr as <-. exists (length (unique col)).
        split; [done|]. split; [done|]. split; [|done].
        rewrite <- (df_getitem_length _ _ _ Hcol). apply unique_from_length.
    + by rewrite (incept_dtype_error _ _ _ Hcol _ Hdt) in Hr.
  - unfold _incept_power_solve_function in Hr. by rewrite Hcol in Hr.
Qed.

Lemma incept_closure_shape_witness :
  (∃ halved, halve (Some 60%Z) = Return halved
             ∧ partial_FTestAnovaPower_solve_power 3 (Some 60%Z)
               = partial_tt_ind_solve_power halved 1%Q)
  ∨ ∃ k, k ≠ 1 ∧ k ≠ 2 ∧ k ≤ length (df_rows (metadata alpha_mock))
         ∧ partial_FTestAnovaPower_solve_power 3 (Some 60%Z)
           = partial_FTestAnovaPower_solve_power k (Some 60%Z).
Proof.
  apply (incept_closure_shape alpha_mock "cd_behavior" (Some 60%Z)).
  vm_compute. reflexivity.
Defined.

(** ** Halving *)

Lemma Qred_half_odd (n : Z) : Z.odd n = true → Qred (n # 2) = (n # 2)%Q.
Proof.
  intros Hn. apply Qcanon.Qred_identity. simpl.
  apply Zodd_bool_iff, Zodd_ex in Hn as [k ->].
  by rewrite Z.gcd_comm, Z.add_comm, Z.mul_comm, Z.gcd_add_mult_diag_r.
Qed.

Lemma Qred_half_even (n : Z) : Z.even n = true → Qred (n # 2) = inject_Z (n / 2).
Proof.
  intros Hn. rewrite (Qred_complete _ (inject_Z (n / 2))).
  - apply Qcanon.Qred_identity. simpl. apply Z.gcd_1_r.
  - apply Zeven_bool_iff, Zeven_ex in Hn as [k ->].
    rewrite Z.mul_comm, Z.div_mul by lia. unfold Qeq. simpl. lia.
Qed.

(** Beyond 2^53 the float the division yields is a whole number. *)
Lemma truediv_by_2_whole (n : Z) (x : Q) :
  (2 ^ 53 < Z.abs n)%Z → truediv_by_2 n = Return x → ∃ m, x = inject_Z m.
Proof.
  intros Hn. unfold truediv_by_2.
  assert (53 ≤ Z.log2 (Z.abs n))%Z as Hlog.
  { apply Z.log2_le_pow2; [|lia].
    assert (0 < 2 ^ 53)%Z by (by vm_compute). lia. }
  rewrite decide_False by lia.
  destruct (decide _); [done|]. intros [= <-]. by eexists.
Qed.

(** X6.  The halving is Python's true division: up to 2^53 in magnitude
    it is exact, so that on a two-valued column an even
    [total_observations] binds the integer half as [nobs1] and an odd
    one binds the half-integer n/2, a per-group size that is not a
    whole number; beyond 2^53 the float is rounded and what is bound is
    a whole number whatever the parity. *)
Theorem incept_halves_without_rounding
    (self : handler) (column : string) (col : Series) (n : Z) :
  df_getitem (metadata self) column = Return col →
  s_dtype col = object →
  length (unique col) = 2 →
  ((Z.abs n ≤ 2 ^ 53)%Z → Z.even n = true →
     _incept_power_solve_function self column (Some n)
     = Return (partial_tt_ind_solve_power (Some (inject_Z (n / 2))) 1%Q))
  ∧ ((Z.abs n ≤ 2 ^ 53)%Z → Z.odd n = true →
     _incept_power_solve_function self column (Some n)
     = Return (partial_tt_ind_solve_power (Some (n # 2)%Q) 1%Q))
  ∧ ((2 ^ 53 < Z.abs n)%Z → ∀ p,
     _incept_power_solve_function self column (Some n) = Return p →
     ∃ m, p = partial_tt_ind_solve_power (Some (inject_Z m)) 1%Q).
Proof.
  intros Hcol Hdt Hn.
  rewrite (incept_two_choices _ _ _ Hcol _ Hdt Hn). simpl.
  split; [|split].
  - intros Hb Hpar. rewrite (truediv_by_2_exact n Hb). simpl.
    by rewrite Qred_half_even.
  - intros Hb Hpar. rewrite (truediv_by_2_exact n Hb). simpl.
    by rewrite Qred_half_odd.
  - intros Hb p Hp.
    destruct (truediv_by_2 n) as [x|e] eqn:Hx; [|done].
    destruct (truediv_by_2_whole n x Hb Hx) as [m ->].
    simpl in Hp. injection Hp as <-. by exists m.
Qed.

Lemma incept_halves_without_rounding_witness :
  _incept_power_solve_function alpha_mock "classification" (Some 41%Z)
  = Return (partial_tt_ind_solve_power (Some (41 # 2)%Q) 1%Q)
  ∧ ∃ m, _incept_power_solve_function alpha_mock "classification"
           (Some (2 ^ 53 + 1)%Z)
         = Return (partial_tt_ind_solve_power (Some (inject_Z m)) 1%Q).
Proof.
  pose proof (incept_halves_without_rounding alpha_mock "classification"
                classification_column) as H.
  split.
  - destruct (H 41%Z) as (_ & Hodd & _);
      [vm_compute; reflexivity | reflexivity | reflexivity |].
    apply Hodd; [vm_compute; discriminate | reflexivity].
  - destruct (H (2 ^ 53 + 1)%Z) as (_ & _ & Hbig);
      [vm_compute; reflexivity | reflexivity | reflexivity |].
    destruct (Hbig ltac:(vm_compute; reflexivity)
                (partial_tt_ind_solve_power (Some 4503599627370496%Q) 1%Q))
      as [m Hm]; [vm_compute; reflexivity|].
    exists m. rewrite <- Hm. vm_compute. reflexivity.
Defined.

(** ** Selection by labels, row by row *)

Section RowsAt.

Context {A : Type}.
Implicit Types (rows : list (string * A)) (labels : list string).

Lemma loc_rows_at rows labels :
  (∀ l, l ∈ labels → l ∈ rows.*1) →
  loc rows labels = Return (rows_at rows labels).
Proof.
  induction labels as [|l labels IH]; intros Hall; [done|]. simpl.
  rewrite loc_one_Return by (apply Hall; left). simpl.
  rewrite IH; [done|]. intros l' Hl'. apply Hall. by right.
Qed.

Lemma filter_split_label rows l labels :
  l ∉ labels →
  filter (λ r, r.1 ∈ l :: labels) rows
  ≡ₚ filter (λ r, r.1 = l) rows ++ filter (λ r, r.1 ∈ labels) rows.
Proof.
  intros Hl. induction rows as [|r rows IH]; [done|].
  rewrite !(filter_cons _ r rows).
  destruct (decide (r.1 = l)) as [Heq | Hne].
  - rewrite decide_True by (rewrite Heq; left).
    rewrite (decide_False (P := r.1 ∈ labels)) by (by rewrite Heq).
    simpl. by rewrite IH.
  - destruct (decide (r.1 ∈ labels)) as [Hin | Hin].
    + rewrite decide_True by (by right).
      rewrite IH. apply Permutation_middle.
    + rewrite decide_False; [done|]. by intros [?|?]%elem_of_cons.
Qed.

(** No row is lost or repeated: the selection is a rearrangement of the
    rows whose label was asked for. *)
Lemma rows_at_perm rows labels :
  NoDup labels → rows_at rows labels ≡ₚ filter (λ r, r.1 ∈ labels) rows.
Proof.
  induction 1 as [|l labels Hl Hnd IH].
  - unfold rows_at; simpl. symmetry. apply Permutation_nil_r.
    apply filter_none. by intros r _ ?%elem_of_nil.
  - change (rows_at rows (l :: labels))
      with (filter (λ r, r.1 = l) rows ++ rows_at rows labels).
    by rewrite filter_split_label, IH.
Qed.

Lemma filter_ext_elem (P Q : string * A → Prop)
    `{!∀ x, Decision (P x)} `{!∀ x, Decision (Q x)} rows :
  (∀ r, r ∈ rows → (P r ↔ Q r)) → filter P rows = filter Q rows.
Proof.
  induction rows as [|r rows IH]; intros Hext; [done|].
  rewrite !(filter_cons _ r rows).
  assert (filter P rows = filter Q rows) as ->
    by (apply IH; intros r' Hr'; apply Hext; by right).
  destruct (decide (P r)) as [HP | HP].
  - rewrite decide_True; [done|]. apply Hext; [left | done].
  - rewrite decide_False; [done|]. intros HQ. apply HP, Hext; [left | done].
Qed.

Lemma filter_label_NoDup (ks : list string) l :
  NoDup ks → l ∈ ks → filter (λ k, k = l) ks = [l].
Proof.
  induction 1 as [|k ks Hk Hnd IH]; [by intros ?%elem_of_nil|].
  rewrite filter_cons. intros [-> | Hl]%elem_of_cons.
  - rewrite decide_True by done. f_equal. apply filter_none. congruence.
  - rewrite decide_False by congruence. by apply IH.
Qed.

Lemma fmap_filter_label rows l :
  (filter (λ r, r.1 = l) rows).*1 = filter (λ k, k = l) rows.*1.
Proof.
  induction rows as [|r rows IH]; [done|].
  rewrite fmap_cons, !filter_cons.
  case_decide; [rewrite fmap_cons; f_equal|]; apply IH.
Qed.

(** With distinct row labels the selection carries exactly the labels
    asked for, in the order asked. *)
Lemma rows_at_index rows labels :
  NoDup rows.*1 → (∀ l, l ∈ labels → l ∈ rows.*1) →
  (rows_at rows labels).*1 = labels.
Proof.
  intros Hnd. induction labels as [|l labels IH]; intros Hall; [done|].
  change (rows_at rows (l :: labels))
    with (filter (λ r, r.1 = l) rows ++ rows_at rows labels).
  rewrite fmap_app, fmap_filter_label.
  rewrite filter_label_NoDup by (done || apply Hall; left). simpl.
  f_equal. apply IH. intros l' Hl'. apply Hall. by right.
Qed.

End RowsAt.

(** ** The constructor, row by row *)

Lemma common_labels (data_in : Series) (metadata_in : DataFrame) l :
  l ∈ elements (list_to_set (df_index metadata_in)
                ∩ list_to_set (s_index data_in) : gset string)
  ↔ l ∈ df_index metadata_in ∧ l ∈ s_index data_in.
Proof. by rewrite elem_of_elements, elem_of_intersection, !elem_of_list_to_set. Qed.

Lemma AlphaDiversityHandler__init__rows_at (data_in : Series) (metadata_in : DataFrame) :
  let labels := elements (list_to_set (df_index metadata_in)
                          ∩ list_to_set (s_index data_in) : gset string) in
  AlphaDiversityHandler__init__ data_in metadata_in
  = Return (mkHandler
              (mkSeries (s_name data_in) (s_dtype data_in)
                 (rows_at (s_items data_in) labels))
              (mkDataFrame (df_columns metadata_in)
                 (rows_at (df_rows metadata_in) labels))).
Proof.
  intros labels. unfold AlphaDiversityHandler__init__, series_loc, df_loc.
  fold labels.
  rewrite (loc_rows_at (s_items data_in) labels); simpl.
  - rewrite (loc_rows_at (df_rows metadata_in) labels); [done|].
    intros l Hl. by apply common_labels in Hl as [? _].
  - intros l Hl. by apply common_labels in Hl as [_ ?].
Qed.

Lemma AlphaDiversityHandler__init__perm (data_in : Series) (metadata_in : DataFrame) :
  ∃ h, AlphaDiversityHandler__init__ data_in metadata_in = Return h
       ∧ s_items (data h)
         ≡ₚ filter (λ it, it.1 ∈ df_index metadata_in) (s_items data_in)
       ∧ df_rows (metadata h)
         ≡ₚ filter (λ r, r.1 ∈ s_index data_in) (df_rows metadata_in)
       ∧ length (s_items (data h))
         = length (filter (λ it, it.1 ∈ df_index metadata_in) (s_items data_in))
       ∧ length (df_rows (metadata h))
         = length (filter (λ r, r.1 ∈ s_index data_in) (df_rows metadata_in)).
Proof.
  eexists. split; [apply AlphaDiversityHandler__init__rows_at|]. simpl.
  set (labels := elements _).
  assert (s_perm : rows_at (s_items data_in) labels
            ≡ₚ filter (λ it, it.1 ∈ df_index metadata_in) (s_items data_in)).
  { rewrite rows_at_perm by apply NoDup_elements.
    erewrite filter_ext_elem; [done|]. intros it Hit. unfold labels.
    rewrite common_labels. split; [tauto|]. intros Hmd. split; [done|].
    by apply list_elem_of_fmap_2. }
  assert (m_perm : rows_at (df_rows metadata_in) labels
            ≡ₚ filter (λ r, r.1 ∈ s_index data_in) (df_rows metadata_in)).
  { rewrite rows_at_perm by apply NoDup_elements.
    erewrite filter_ext_elem; [done|]. intros r Hr. unfold labels.
    rewrite common_labels. split; [tauto|]. intros Hda. split; [|done].
    by apply list_elem_of_fmap_2. }
  split; [done|]. split; [done|]. split.
  - by rewrite s_perm.
  - by rewrite m_perm.
Qed.

(** X7.  Construction loses and repeats no row: the handler's data is a
    rearrangement of the input items whose id the metadata has, and its
    metadata a rearrangement of the input rows whose id the data has;
    so the handler holds as many items, and as many rows, as there are
    such in the input. *)
Theorem init_keeps_each_common_row_once (data_in : Series) (metadata_in : DataFrame) :
  ∃ h, AlphaDiversityHandler__init__ data_in metadata_in = Return h
       ∧ s_items (data h)
         ≡ₚ filter (λ it, it.1 ∈ df_index metadata_in) (s_items data_in)
       ∧ df_rows (metadata h)
         ≡ₚ filter (λ r, r.1 ∈ s_index data_in) (df_rows metadata_in)
       ∧ length (s_items (data h))
         = length (filter (λ it, it.1 ∈ df_index metadata_in) (s_items data_in))
       ∧ length (df_rows (metadata h))
         = length (filter (λ r, r.1 ∈ s_index data_in) (df_rows metadata_in)).
Proof. exact (AlphaDiversityHandler__init__perm data_in metadata_in). Qed.

(** X8.  When the ids of the data are distinct and the ids of the
    metadata are distinct, the constructed handler lists the same ids in
    the same order in its data and in its metadata, each id once: row k
    of the data and row k of the metadata are the same sample. *)
Theorem init_aligns_data_and_metadata
    (data_in : Series) (metadata_in : DataFrame) (h : handler) :
  NoDup (s_index data_in) →
  NoDup (df_index metadata_in) →
  AlphaDiversityHandler__init__ data_in metadata_in = Return h →
  s_index (data h) = samples h ∧ NoDup (samples h).
Proof.
  intros Hd Hm Hinit.
  rewrite AlphaDiversityHandler__init__rows_at in Hinit.
  injection Hinit as <-. unfold s_index, samples, df_index. simpl.
  rewrite (rows_at_index (s_items data_in)); [|done|].
  - rewrite (rows_at_index (df_rows metadata_in)); [|done|].
    + split; [done | apply NoDup_elements].
    + intros l Hl. by apply common_labels in Hl as [? _].
  - intros l Hl. by apply common_labels in Hl as [_ ?].
Qed.

Lemma init_aligns_data_and_metadata_witness :
  s_index (data alpha_mock) = samples alpha_mock ∧ NoDup (samples alpha_mock).
Proof.
  apply (init_aligns_data_and_metadata faith_pd_example metadata_example).
  - apply (bool_decide_unpack _). vm_compute. exact I.
  - apply (bool_decide_unpack _). vm_compute. exact I.
  - vm_compute. reflexivity.
Defined.

Lemma filter_all {A} (P : A → Prop) `{!∀ x, Decision (P x)} (l : list A) :
  (∀ x, x ∈ l → P x) → filter P l = l.
Proof.
  induction l as [|x l IH]; intros Hall; [done|].
  rewrite filter_cons, decide_True by (apply Hall; left).
  f_equal. apply IH. intros y Hy. apply Hall. by right.
Qed.

(** X9.  Construction is idempotent up to the order of the rows:
    building a handler again from the data and the metadata of a
    constructed handler succeeds and gives the same items and the same
    rows, each as often as before, under the same header. *)
Theorem init_idempotent_up_to_order
    (data_in : Series) (metadata_in : DataFrame) (h : handler) :
  AlphaDiversityHandler__init__ data_in metadata_in = Return h →
  ∃ h', AlphaDiversityHandler__init__ (data h) (metadata h) = Return h'
        ∧ s_items (data h') ≡ₚ s_items (data h)
        ∧ df_rows (metadata h') ≡ₚ df_rows (metadata h)
        ∧ df_columns (metadata h') = df_columns (metadata h)
        ∧ s_name (data h') = s_name (data h)
        ∧ s_dtype (data h') = s_dtype (data h).
Proof.
  intros Hinit.
  destruct (AlphaDiversityHandler__init__spec data_in metadata_in)
    as (h0 & Hinit0 & Hdata & Hsamples & _).
  rewrite Hinit in Hinit0. injection Hinit0 as <-.
  assert (Hids : ∀ i, i ∈ s_index (data h) ↔ i ∈ df_index (metadata h)).
  { intros i. rewrite <- !(elem_of_list_to_set (C:=gset string)).
    unfold samples in Hsamples. by rewrite Hdata, Hsamples. }
  destruct (AlphaDiversityHandler__init__perm (data h) (metadata h))
    as (h' & Hinit' & Hs & Hm & _).
  exists h'. split; [done|].
  rewrite filter_all in Hs
    by (intros it Hit; apply Hids; by apply list_elem_of_fmap_2).
  rewrite filter_all in Hm
    by (intros r Hr; apply Hids; by apply list_elem_of_fmap_2).
  split; [done|]. split; [done|].
  rewrite AlphaDiversityHandler__init__rows_at in Hinit'.
  by injection Hinit' as <-.
Qed.

Lemma init_idempotent_up_to_order_witness :
  ∃ h', AlphaDiversityHandler__init__ (data alpha_mock) (metadata alpha_mock)
        = Return h'
        ∧ s_items (data h') ≡ₚ s_items (data alpha_mock)
        ∧ df_rows (metadata h') ≡ₚ df_rows (metadata alpha_mock).
Proof.
  destruct (init_idempotent_up_to_order faith_pd_example metadata_example
              alpha_mock) as (h' & Hinit & Hs & Hm & _).
  - vm_compute. reflexivity.
  - exists h'. split; [exact Hinit|]. split; [exact Hs | exact Hm].
Defined.

(** X10.  Inputs with no id in common are not an error: the constructor
    returns a handler with no samples and no data, and on it every
    column that is of dtype object in the input counts zero choices and
    gets the ANOVA-F closure with [k_groups] 0. *)
Theorem disjoint_inputs_give_empty_handler
    (data_in : Series) (metadata_in : DataFrame) :
  (∀ i, i ∈ s_index data_in → i ∉ df_index metadata_in) →
  ∃ h, AlphaDiversityHandler__init__ data_in metadata_in = Return h
       ∧ samples h = []
       ∧ s_items (data h) = []
       ∧ ∀ column col total_observations,
           df_getitem metadata_in column = Return col →
           s_dtype col = object →
           _incept_power_solve_function h column total_observations
           = Return (partial_FTestAnovaPower_solve_power 0 total_observations).
Proof.
  intros Hdisj. eexists.
  split; [apply AlphaDiversityHandler__init__rows_at|]. simpl.
  assert (list_to_set (df_index metadata_in) ∩ list_to_set (s_index data_in)
          =@{gset string} ∅) as ->.
  { apply set_eq. intros i.
    rewrite elem_of_intersection, !elem_of_list_to_set.
    split; [|by intros ?%not_elem_of_empty].
    intros [Hm Hd]. by destruct (Hdisj i Hd). }
  rewrite elements_empty. split; [done|]. split; [done|].
  intros column col t Hcol Hdt.
  unfold _incept_power_solve_function, df_getitem in *. simpl in *.
  destruct (column_position _ _) as [[j dt]|]; [|done].
  injection Hcol as <-. simpl in *. subst dt. by case_decide.
Qed.

Lemma disjoint_inputs_give_empty_handler_witness :
  ∃ h, AlphaDiversityHandler__init__ faith_pd_disjoint metadata_example = Return h
       ∧ samples h = []
       ∧ _incept_power_solve_function h "classification" (Some 40%Z)
         = Return (partial_FTestAnovaPower_solve_power 0 (Some 40%Z)).
Proof.
  destruct (disjoint_inputs_give_empty_handler faith_pd_disjoint metadata_example)
    as (h & Hinit & Hsamples & _ & Hincept).
  - apply Forall_forall. apply (bool_decide_unpack _). vm_compute. exact I.
  - exists h. split; [exact Hinit|]. split; [exact Hsamples|].
    apply (Hincept "classification" classification_metadata).
    + vm_compute. reflexivity.
    + reflexivity.
Defined.

(** X11.  Construction leaves the column header, the name and the dtype
    of the data as they were; so on the constructed handler a column the
    input metadata lacks is a [KeyError] and a column that is not of
    dtype object in the input is the dtype [ValueError], whichever
    samples the two inputs share. *)
Theorem init_keeps_header
    (data_in : Series) (metadata_in : DataFrame) (h : handler) :
  AlphaDiversityHandler__init__ data_in metadata_in = Return h →
  df_columns (metadata h) = df_columns metadata_in
  ∧ s_name (data h) = s_name data_in
  ∧ s_dtype (data h) = s_dtype data_in
  ∧ (∀ column total_observations,
       column ∉ (df_columns metadata_in).*1 →
       _incept_power_solve_function h column total_observations
       = Raise (Exn KeyError column))
  ∧ (∀ column col total_observations,
       df_getitem metadata_in column = Return col →
       s_dtype col ≠ object →
       _incept_power_solve_function h column total_observations
       = Raise (Exn ValueError "Column must be of dtype object!")).
Proof.
  intros Hinit. rewrite AlphaDiversityHandler__init__rows_at in Hinit.
  injection Hinit as <-. simpl. do 3 (split; [done|]). split.
  - intros column t Hcol. unfold _incept_power_solve_function.
    apply df_getitem_KeyError in Hcol. unfold df_getitem in *. simpl.
    by destruct (column_position _ _) as [[j dt]|].
  - intros column col t Hcol Hdt.
    unfold _incept_power_solve_function, df_getitem in *. simpl.
    destruct (column_position _ _) as [[j dt]|]; [|done].
    injection Hcol as <-. simpl in *. by case_decide.
Qed.

Lemma init_keeps_header_witness :
  df_columns (metadata alpha_mock) = df_columns metadata_example
  ∧ _incept_power_solve_function alpha_mock "bmi" None
    = Raise (Exn KeyError "bmi")
  ∧ _incept_power_solve_function alpha_mock "year_diagnosed" None
    = Raise (Exn ValueError "Column must be of dtype object!").
Proof.
  destruct (init_keeps_header faith_pd_example metadata_example alpha_mock)
    as (Hcols & _ & _ & Hkey & Hdt).
  - vm_compute. reflexivity.
  - split; [exact Hcols|]. split.
    + apply Hkey. apply (bool_decide_unpack _). vm_compute. exact I.
    + apply (Hdt "year_diagnosed"
               (mkSeries "year_diagnosed" int64
                  [("S0", CInt 2008); ("S1", CInt 2010); ("S2", CInt 2010);
                   ("S3", CInt 2010); ("S4", CInt 2010); ("S5", CInt 2010)])).
      * vm_compute. reflexivity.
      * vm_compute. discriminate.
Defined.

(** ** The frame [_power_analysis] builds *)

(** X13.  The one-column frame [_power_analysis] hands to the handler
    and the column name it then passes to [power_analysis] fit together:
    looking that name up in the frame gives back the metadata series
    unchanged, the frame has the index of the series, and any other name
    is a [KeyError]. *)
Theorem to_frame_getitem_roundtrip (md : Series) :
  df_getitem (to_frame md) (s_name md) = Return md
  ∧ df_index (to_frame md) = s_index md
  ∧ ∀ column, column ≠ s_name md →
      df_getitem (to_frame md) column = Raise (Exn KeyError column).
Proof.
  destruct md as [name dt items]. unfold df_getitem, to_frame; simpl.
  split; [|split].
  - rewrite decide_True by done. do 2 f_equal.
    induction items as [|[i c] items IH]; [done|]. simpl. by rewrite IH.
  - unfold df_index, s_index; simpl.
    induction items as [|[i c] items IH]; [done|]. simpl. f_equal. exact IH.
  - intros column Hne. by rewrite decide_False by done.
Qed.

(** ** The order in which the set of common ids is visited *)

(** X14.  The order in which the constructor visits the set of common
    ids does not reach the closure: on the constructed handler the
    function gives what it gives on the input metadata cut down, in its
    own row order, to the rows whose id the data has. *)
Theorem incept_ignores_set_order
    (data_in : Series) (metadata_in : DataFrame) (h : handler)
    (column : string) (total_observations : option Z) :
  AlphaDiversityHandler__init__ data_in metadata_in = Return h →
  _incept_power_solve_function h column total_observations
  = _incept_power_solve_function
      (BaseDiversityHandler__init__ data_in
         (mkDataFrame (df_columns metadata_in)
            (filter (λ r, r.1 ∈ s_index data_in) (df_rows metadata_in))))
      column total_observations.
Proof.
  intros Hinit.
  destruct (AlphaDiversityHandler__init__perm data_in metadata_in)
    as (h' & Hinit' & _ & Hperm & _).
  rewrite Hinit in Hinit'. injection Hinit' as <-.
  rewrite AlphaDiversityHandler__init__rows_at in Hinit.
  assert (df_columns (metadata h) = df_columns metadata_in) as Hcols
    by (by injection Hinit as <-).
  destruct (column_position (df_columns metadata_in) column)
    as [[j dt]|] eqn:Hpos.
  - eapply incept_same_value_set.
    + unfold df_getitem. rewrite Hcols, Hpos. reflexivity.
    + unfold df_getitem. simpl. rewrite Hpos. reflexivity.
    + done.
    + unfold s_values; simpl. intros x.
      rewrite !list_elem_of_fmap. intros ([i c] & -> & Hin). simpl.
      apply list_elem_of_fmap in Hin as (r & [= -> ->] & Hr).
      exists (r.1, nth j r.2 CNaN). split; [done|].
      apply list_elem_of_fmap. exists r. split; [done|]. by rewrite <- Hperm.
    + unfold s_values; simpl. intros x.
      rewrite !list_elem_of_fmap. intros ([i c] & -> & Hin). simpl.
      apply list_elem_of_fmap in Hin as (r & [= -> ->] & Hr).
      exists (r.1, nth j r.2 CNaN). split; [done|].
      apply list_elem_of_fmap. exists r. split; [done|]. by rewrite Hperm.
  - apply column_position_None in Hpos.
    assert (column ∉ (df_columns (metadata h)).*1) as Hpos' by (by rewrite Hcols).
    apply df_getitem_KeyError in Hpos'.
    unfold _incept_power_solve_function at 1. rewrite Hpos'. simpl.
    unfold _incept_power_solve_function, df_getitem. simpl.
    apply column_position_None in Hpos. by rewrite Hpos.
Qed.

Lemma incept_ignores_set_order_witness :
  _incept_power_solve_function alpha_mock "cd_behavior" (Some 60%Z)
  = _incept_power_solve_function
      (BaseDiversityHandler__init__ faith_pd_example
         (mkDataFrame (df_columns metadata_example)
            (filter (λ r, r.1 ∈ s_index faith_pd_example)
               (df_rows metadata_example))))
      "cd_behavior" (Some 60%Z).
Proof.
  apply (incept_ignores_set_order faith_pd_example metadata_example).
  vm_compute. reflexivity.
Defined.

(** ** The models of [unique()] and of [/] on small inputs *)

(** [1] and [1.0] are one value; [None] and NaN are two. *)
Example unique_int_and_float_are_one_value :
  _incept_power_solve_function
    (BaseDiversityHandler__init__ faith_pd_example
       (mkDataFrame [("x", object)] [("S1", [CInt 1]); ("S2", [CFloat 1])]))
    "x" (Some 40%Z)
  = Raise (Exn ValueError "Only one column value!").
Proof. vm_compute. reflexivity. Qed.

Example unique_None_and_NaN_are_two_values :
  _incept_power_solve_function
    (BaseDiversityHandler__init__ faith_pd_example
       (mkDataFrame [("x", object)]
          [("S1", [CStr "a"]); ("S2", [CNone]); ("S3", [CNaN])]))
    "x" (Some 40%Z)
  = Return (partial_FTestAnovaPower_solve_power 3 (Some 40%Z)).
Proof. vm_compute. reflexivity. Qed.

(** [(2**53 + 1) / 2] is [4503599627370496.0]; [10**400 / 2] is an
    [OverflowError]. *)
Example truediv_by_2_rounds_and_overflows :
  truediv_by_2 (2 ^ 53 + 1) = Return 4503599627370496%Q
  ∧ truediv_by_2 (10 ^ 400)
    = Raise (Exn OverflowError "integer division result too large for a float").
Proof. split; vm_compute; reflexivity. Qed.
